(** * Distributed-actor type checking (lib/Sema/TypeCheckDistributed.cpp)

    A shallow embedding of the distributed-actor validation pass of the
    Swift type checker, and the properties its specification states.

    The pass reads an already built declaration tree, asks a handful of
    external collaborators (conformance lookup, remote-counterpart lookup,
    member synthesis, the request evaluator) and reports diagnostics.  The
    embedding keeps that shape: every function of the source file is a
    computation in a small monad [M] that threads the evaluator's cache,
    collects the calls made to collaborators and the diagnostics emitted
    (in program order), and can stop on a failed [assert]. *)

From stdpp Require Import base numbers strings list gmap.

Local Open Scope Z_scope.
Local Open Scope string_scope.
Local Open Scope list_scope.

(** ** The declaration tree, as far as this file reads it *)

Definition Identifier := string.

(** Declarations are compared by address in the source ([==] on pointers);
    a declaration that is compared or used as a cache key carries one. *)
Definition DeclPtr := positive.

Record ModuleDecl := mkModuleDecl { moduleName : Identifier }.

(** A protocol declaration with the protocols named in its inheritance
    clause.  Protocol inheritance is acyclic, so the clause unfolds into a
    finite tree. *)
#[local] Unset Elimination Schemes.
Inductive ProtocolDecl :=
  mkProtocolDecl (ptr : DeclPtr) (name : Identifier) (inherited : list ProtocolDecl).
#[local] Set Elimination Schemes.

Definition protocolPtr (p : ProtocolDecl) : DeclPtr :=
  match p with mkProtocolDecl ptr _ _ => ptr end.
Definition protocolName (p : ProtocolDecl) : Identifier :=
  match p with mkProtocolDecl _ name _ => name end.
Definition getInheritedProtocols (p : ProtocolDecl) : list ProtocolDecl :=
  match p with mkProtocolDecl _ _ inherited => inherited end.

(** Induction on a protocol with the hypothesis available for every protocol
    of its inheritance clause. *)
Fixpoint ProtocolDecl_inherited_ind (P : ProtocolDecl -> Prop)
    (step : forall ptr name inherited,
        Forall P inherited -> P (mkProtocolDecl ptr name inherited))
    (p : ProtocolDecl) : P p :=
  match p with
  | mkProtocolDecl ptr name inherited =>
      step ptr name inherited
        ((fix clause (l : list ProtocolDecl) : Forall P l :=
            match l with
            | [] => List.Forall_nil P
            | q :: rest => @List.Forall_cons _ P q rest (ProtocolDecl_inherited_ind P step q) (clause rest)
            end) inherited)
  end.

(** [protocol == other] on [ProtocolDecl *]. *)
Definition sameProtocol (p q : ProtocolDecl) : bool :=
  Pos.eqb (protocolPtr p) (protocolPtr q).

(** Modelled from the spec: [ProtocolDecl::inheritsFrom] lives in the AST
    library, outside this file; the data model gives a protocol its "list of
    inherited protocols" and the classification speaks of a protocol that
    "transitively inherits" another.  [inheritsFrom this super] walks the
    inheritance clauses below [this] looking for [super]. *)
Fixpoint inheritsFrom (this super : ProtocolDecl) : bool :=
  match this with
  | mkProtocolDecl _ _ inherited =>
      existsb (fun q => sameProtocol q super || inheritsFrom q super) inherited
  end.

(** The relation the words "transitively inherits" denote: a non-empty chain
    of inheritance clauses from [this] to the declaration [super]. *)
Inductive TransitivelyInherits (super : ProtocolDecl) : ProtocolDecl -> Prop :=
  | inherits_direct this q :
      In q (getInheritedProtocols this) ->
      protocolPtr q = protocolPtr super ->
      TransitivelyInherits super this
  | inherits_step this q :
      In q (getInheritedProtocols this) ->
      TransitivelyInherits super q ->
      TransitivelyInherits super this.

Inductive KnownProtocolKind := Encodable | Decodable | ActorTransport.

(** The answer of a conformance lookup.  The pass only asks [isInvalid]. *)
Inductive ProtocolConformanceRef := InvalidConformance | ValidConformance.

Definition isInvalid (conformance : ProtocolConformanceRef) : bool :=
  match conformance with InvalidConformance => true | ValidConformance => false end.

(** [int] is 32 bits wide on every target the compiler builds for; the
    counter of the constructor check is one. *)
Definition int_wrap (z : Z) : Z := (z + 2 ^ 31) `mod` 2 ^ 32 - 2 ^ 31.
Definition INT_MAX : Z := 2 ^ 31 - 1.

Inductive CtorInitializerKind :=
  | Designated | Convenience | ConvenienceFactory | Factory.

(** How a call ends: it returns, or an [assert] in it fails. *)
Inductive Outcome (A : Type) :=
  | Returned (a : A)
  | AssertionFailed.
Arguments Returned {A} a.
Arguments AssertionFailed {A}.

(** Types and the queries on them belong to the type system proper; the pass
    only calls them.  [lookupConformance] is the answer
    [TypeChecker::conformsToProtocol] gives, [getDeclaredInterfaceType] the
    type a protocol declares. *)
Class TypeSystem := {
  Ty : Type;
  isEqual : Ty -> Ty -> bool;
  isVoid : Ty -> bool;
  lookupConformance : Ty -> ProtocolDecl -> ModuleDecl -> ProtocolConformanceRef;
  getDeclaredInterfaceType : ProtocolDecl -> Ty
}.

Section DeclarationTree.
Context `{TypeSystem}.

Record ParamDecl := mkParamDecl {
  getArgumentName : Identifier;
  getInterfaceType : Ty
}.

Record ConstructorDecl := mkConstructorDecl {
  ctorName : Identifier;
  getInitKind : CtorInitializerKind;
  ctorParameters : list ParamDecl;
  ctorMapTypeIntoContext : Ty -> Ty;
  ctorParentModule : ModuleDecl
}.

Definition isDesignatedInit (ctor : ConstructorDecl) : bool :=
  match getInitKind ctor with Designated => true | _ => false end.

Record VarDecl := mkVarDecl { varName : Identifier }.

(** The members of a class.  The pass [dyn_cast]s each member to a
    constructor or to a property and skips everything else, so the other
    member kinds carry their name only. *)
Inductive Decl :=
  | D_Constructor (ctor : ConstructorDecl)
  | D_Var (prop : VarDecl)
  | D_Func (name : Identifier)
  | D_Subscript
  | D_TypeAlias (name : Identifier).

Definition dyn_cast_ConstructorDecl (member : Decl) : option ConstructorDecl :=
  match member with D_Constructor ctor => Some ctor | _ => None end.
Definition dyn_cast_VarDecl (member : Decl) : option VarDecl :=
  match member with D_Var prop => Some prop | _ => None end.

Record ClassDecl := mkClassDecl {
  classPtr : DeclPtr;
  className : Identifier;
  isExplicitDistributedActor : bool;
  getMembers : list Decl
}.

Inductive NominalTypeDecl :=
  | NTD_Protocol (protocol : ProtocolDecl)
  | NTD_Class (classDecl : ClassDecl)
  | NTD_Struct (name : Identifier)
  | NTD_Enum (name : Identifier).

Definition dyn_cast_ProtocolDecl (nominal : NominalTypeDecl) : option ProtocolDecl :=
  match nominal with NTD_Protocol protocol => Some protocol | _ => None end.
Definition dyn_cast_ClassDecl (nominal : NominalTypeDecl) : option ClassDecl :=
  match nominal with NTD_Class classDecl => Some classDecl | _ => None end.

(** What [func->getParent()] can be: a nominal type, an extension of one, or
    file scope.  Only the first can be a [ClassDecl]. *)
Inductive DeclContext :=
  | DC_Nominal (nominal : NominalTypeDecl)
  | DC_Extension (extended : NominalTypeDecl)
  | DC_FileUnit.

Definition dyn_cast_ClassDecl_ctx (dc : DeclContext) : option ClassDecl :=
  match dc with DC_Nominal nominal => dyn_cast_ClassDecl nominal | _ => None end.

Record FuncDecl := mkFuncDecl {
  getBaseIdentifier : Identifier;
  hasDistributedActorAttr : bool;
  isSynthesized : bool;
  getParameters : list ParamDecl;
  getResultInterfaceType : Ty;
  mapTypeIntoContext : Ty -> Ty;
  getParentModule : ModuleDecl;
  getParent : DeclContext
}.

Record ASTContext := mkASTContext {
  LoadedModules : gmap string ModuleDecl;
  Id_Distributed : Identifier;
  Id_actorTransport : Identifier;
  Id_id : Identifier;
  getDistributedActorDecl : ProtocolDecl;
  getProtocol : KnownProtocolKind -> ProtocolDecl
}.

Definition getLoadedModule (C : ASTContext) (id : Identifier) : option ModuleDecl :=
  LoadedModules C !! id.

(** ** Diagnostics and the trace of a run *)

Inductive Diag :=
  | distributed_actor_needs_explicit_distributed_import
  | distributed_actor_func_param_not_codable (argumentName : string) (type : Ty)
  | distributed_actor_func_result_not_codable (type : Ty)
  | distributed_actor_remote_func_implemented_manually (base remote : Identifier)
  | distributed_actor_user_defined_special_property (id : Identifier)
  | distributed_actor_designated_ctor_missing_transport_param (name : Identifier)
  | distributed_actor_designated_ctor_must_have_one_transport_param
      (name : Identifier) (count : Z).

(** The declaration a diagnostic is attached to ([x->diagnose(...)]). *)
Inductive DiagSite :=
  | At_Class (decl : ClassDecl)
  | At_Func (func : FuncDecl)
  | At_Ctor (ctor : ConstructorDecl)
  | At_Var (prop : VarDecl).

(** One entry per diagnostic emitted and per call to a collaborator outside
    this file, in program order. *)
Inductive Event :=
  | Diagnosed (site : DiagSite) (d : Diag)
  | ConformsToProtocol (type : Ty) (protocol : ProtocolDecl) (module : ModuleDecl)
  | LookupDirectRemoteFunc (actorDecl : ClassDecl) (func : FuncDecl)
  | GetDefaultInitializer (decl : ClassDecl)
  | AddImplicitDistributedActorMembersToClass (decl : ClassDecl).

Definition diagnosticOf (e : Event) : option (DiagSite * Diag) :=
  match e with Diagnosed site d => Some (site, d) | _ => None end.

(** The diagnostics of a trace, and the calls of a trace. *)
Definition diagnostics (trace : list Event) : list (DiagSite * Diag) :=
  omap diagnosticOf trace.

Definition isCall (e : Event) : bool :=
  match e with Diagnosed _ _ => false | _ => true end.

Definition calls (trace : list Event) : list Event := List.filter isCall trace.

(** ** The monad of the pass

    A computation reads and extends the cache of
    [DistributedModuleIsAvailableRequest] (keyed by declaration), appends to
    the trace, and either returns or dies on an assertion. *)

Definition M (A : Type) : Type :=
  gmap positive bool -> Outcome A * gmap positive bool * list Event.

Definition ret {A} (a : A) : M A := fun cache => (Returned a, cache, []).

Definition bind {A B} (m : M A) (k : A -> M B) : M B :=
  fun cache =>
    match m cache with
    | (Returned a, cache1, trace1) =>
        match k a cache1 with
        | (o, cache2, trace2) => (o, cache2, trace1 ++ trace2)
        end
    | (AssertionFailed, cache1, trace1) => (AssertionFailed, cache1, trace1)
    end.

(** What a run from a given cache leaves behind. *)
Definition outcomeOf {A} (m : M A) (cache : gmap positive bool) : Outcome A := (m cache).1.1.
Definition cacheOf {A} (m : M A) (cache : gmap positive bool) : gmap positive bool :=
  (m cache).1.2.
Definition traceOf {A} (m : M A) (cache : gmap positive bool) : list Event := (m cache).2.

Definition emit (e : Event) : M unit := fun cache => (Returned tt, cache, [e]).

Definition assert_ (cond : bool) : M unit :=
  fun cache => if cond then (Returned tt, cache, []) else (AssertionFailed, cache, []).

End DeclarationTree.

Notation "'let*' x ':=' m 'in' k" := (bind m (fun x => k))
  (at level 10, x name, m at level 100, k at level 200).
Notation "'let*' ' pat ':=' m 'in' k" := (bind m (fun x => match x with pat => k end))
  (at level 10, pat pattern, m at level 100, k at level 200).
Notation "m >> k" := (bind m (fun _ => k))
  (at level 100, k at level 200, right associativity).

(** The rest of the compiler the pass calls into: the AST context, the lookup
    of a function's [_remote_] counterpart on its class, and the two member
    synthesizers, each given by the members it appends to the class. *)
Class Collaborators `{TypeSystem} := {
  C : ASTContext;
  remoteFuncOf : ClassDecl -> FuncDecl -> option FuncDecl;
  synthesizedDefaultInitializer : ClassDecl -> list Decl;
  implicitDistributedActorMembers : ClassDecl -> list Decl
}.

Section Pass.
Context `{Collaborators}.

Definition diagnose_ (site : DiagSite) (d : Diag) : M unit := emit (Diagnosed site d).

(** [if (diagnose) ...] *)
Definition when (cond : bool) (m : M unit) : M unit := if cond then m else ret tt.

(** [a || b] where both sides are calls: the right one runs only when the
    left one is false. *)
Definition orElse (a b : M bool) : M bool :=
  let* x := a in if x then ret true else b.

(** A range-[for] whose body neither breaks nor returns. *)
Fixpoint forEach {A} (body : A -> M unit) (range : list A) : M unit :=
  match range with
  | [] => ret tt
  | x :: rest => body x >> forEach body rest
  end.

Definition conformsToProtocol (type : Ty) (protocol : ProtocolDecl) (module : ModuleDecl)
  : M ProtocolConformanceRef :=
  emit (ConformsToProtocol type protocol module) >>
  ret (lookupConformance type protocol module).

Definition lookupDirectRemoteFunc (actorDecl : ClassDecl) (func : FuncDecl)
  : M (option FuncDecl) :=
  emit (LookupDirectRemoteFunc actorDecl func) >> ret (remoteFuncOf actorDecl func).

Definition addMembers (decl : ClassDecl) (members : list Decl) : ClassDecl :=
  {| classPtr := classPtr decl;
     className := className decl;
     isExplicitDistributedActor := isExplicitDistributedActor decl;
     getMembers := getMembers decl ++ members |}.

(** Both synthesizers change the class in place; here they return it. *)
Definition getDefaultInitializer (decl : ClassDecl) : M ClassDecl :=
  emit (GetDefaultInitializer decl) >>
  ret (addMembers decl (synthesizedDefaultInitializer decl)).

Definition addImplicitDistributedActorMembersToClass (decl : ClassDecl) : M ClassDecl :=
  emit (AddImplicitDistributedActorMembersToClass decl) >>
  ret (addMembers decl (implicitDistributedActorMembers decl)).

(** *** The availability gate *)

Definition DistributedModuleIsAvailableRequest_evaluate (decl : ClassDecl) : M bool :=
  match getLoadedModule C (Id_Distributed C) with
  | Some _ => ret true
  | None =>
      diagnose_ (At_Class decl) distributed_actor_needs_explicit_distributed_import >>
      ret false
  end.

(** Modelled from the spec: the request evaluator ([evaluateOrDefault] and
    the caching policy of the request) is declared outside this file.  The
    spec has the result "cached per declaration identity for the lifetime of
    the compilation - repeated calls for the same declaration do not re-run
    the check or re-emit the diagnostic".  The default is what a dependency
    cycle yields; this request issues no request, so it is never used. *)
Definition evaluateOrDefault (key : DeclPtr) (request : M bool) (default : bool) : M bool :=
  fun cache =>
    match cache !! key with
    | Some cached => (Returned cached, cache, [])
    | None =>
        match request cache with
        | (Returned value, cache1, trace) => (Returned value, <[key := value]> cache1, trace)
        | (AssertionFailed, cache1, trace) => (AssertionFailed, cache1, trace)
        end
    end.

Definition ensureDistributedModuleLoaded (decl : ClassDecl) : M bool :=
  let* moduleAvailable :=
    evaluateOrDefault (classPtr decl) (DistributedModuleIsAvailableRequest_evaluate decl) false in
  ret moduleAvailable.

(** *** Classification queries *)

Definition IsDistributedActorRequest_evaluate (nominal : NominalTypeDecl) : M bool :=
  match dyn_cast_ProtocolDecl nominal with
  | Some protocol =>
      let distributedActorProtocol := getDistributedActorDecl C in
      ret (sameProtocol protocol distributedActorProtocol
           || inheritsFrom protocol distributedActorProtocol)
  | None =>
      match dyn_cast_ClassDecl nominal with
      | None => ret false
      | Some classDecl => ret (isExplicitDistributedActor classDecl)
      end
  end.

(** [decl->isDistributedActor()] asks the evaluator for
    [IsDistributedActorRequest]; the request has no effect and reads only the
    declaration, so memoising it cannot be observed and the call is modelled
    by the evaluation itself. *)
Definition isDistributedActor (nominal : NominalTypeDecl) : M bool :=
  IsDistributedActorRequest_evaluate nominal.

Definition IsDistributedFuncRequest_evaluate (func : FuncDecl) : M bool :=
  if hasDistributedActorAttr func then ret true else ret false.

(** *** The function contract validator *)

(** The parameter loop of [checkDistributedFunction].  [Some r]: the loop body
    executed [return r]; [None]: the loop ran to its end. *)
Fixpoint checkDistributedFunction_params (func : FuncDecl) (diagnose : bool)
    (encodableType decodableType : ProtocolDecl) (module : ModuleDecl)
    (params : list ParamDecl) : M (option bool) :=
  match params with
  | [] => ret None
  | param :: rest =>
      let paramTy := mapTypeIntoContext func (getInterfaceType param) in
      let* notCodable :=
        orElse (let* c := conformsToProtocol paramTy encodableType module in ret (isInvalid c))
               (let* c := conformsToProtocol paramTy decodableType module in ret (isInvalid c)) in
      if notCodable then
        when diagnose
          (diagnose_ (At_Func func)
             (distributed_actor_func_param_not_codable
                (getArgumentName param) (getInterfaceType param))) >>
        ret (Some true)
      else
        checkDistributedFunction_params func diagnose encodableType decodableType module rest
  end.

(** The identifier the compiler gives the synthesized remote counterpart. *)
Definition remoteIdentifier (func : FuncDecl) : Identifier :=
  String.append "_remote_" (getBaseIdentifier func).

(** The last part of [checkDistributedFunction], below
    [=== Check _remote functions]. *)
Definition checkDistributedFunction_remote (func : FuncDecl) (diagnose : bool) : M bool :=
  match dyn_cast_ClassDecl_ctx (getParent func) with
  | None => assert_ false >> ret false
  | Some actorDecl =>
      let* isActor := isDistributedActor (NTD_Class actorDecl) in
      assert_ isActor >>
      (* _remote function for a distributed function must not be implemented
         by end-users *)
      let* remoteFuncDecl := lookupDirectRemoteFunc actorDecl func in
      match remoteFuncDecl with
      | Some remote =>
          if negb (isSynthesized remote) then
            when diagnose
              (diagnose_ (At_Func func)
                 (distributed_actor_remote_func_implemented_manually
                    (getBaseIdentifier func) (remoteIdentifier func))) >>
            ret true
          else ret false
      | None => ret false
      end
  end.

(** Returns [true] if there was a problem. *)
Definition checkDistributedFunction (func : FuncDecl) (diagnose : bool) : M bool :=
  let encodableType := getProtocol C Encodable in
  let decodableType := getProtocol C Decodable in
  let module := getParentModule func in
  (* --- Check parameters for 'Codable' conformance *)
  let* returned :=
    checkDistributedFunction_params func diagnose encodableType decodableType module
      (getParameters func) in
  match returned with
  | Some problem => ret problem
  | None =>
      (* --- Result type must be either void or a codable type *)
      let resultType := mapTypeIntoContext func (getResultInterfaceType func) in
      let* resultNotCodable :=
        if negb (isVoid resultType) then
          orElse (let* c := conformsToProtocol resultType decodableType module in ret (isInvalid c))
                 (let* c := conformsToProtocol resultType encodableType module in ret (isInvalid c))
        else ret false in
      if resultNotCodable then
        when diagnose
          (diagnose_ (At_Func func)
             (distributed_actor_func_result_not_codable (getResultInterfaceType func))) >>
        ret true
      else
        (* === Check _remote functions *)
        checkDistributedFunction_remote func diagnose
  end.

(** *** The property contract validator *)

Definition checkDistributedActorProperties (decl : ClassDecl) : M unit :=
  forEach
    (fun member =>
       match dyn_cast_VarDecl member with
       | Some prop =>
           let id := varName prop in
           if String.eqb id (Id_actorTransport C) || String.eqb id (Id_id C) then
             diagnose_ (At_Var prop) (distributed_actor_user_defined_special_property id)
           else ret tt
       | None => ret tt
       end)
    (getMembers decl).

(** *** The constructor contract validator *)

(** The parameter loop of [checkDistributedActorConstructor]; its state is the
    counter and the vector of transport parameters found so far. *)
Fixpoint checkDistributedActorConstructor_params (ctor : ConstructorDecl)
    (protocolDecl : ProtocolDecl) (protocolTy : Ty) (module : ModuleDecl)
    (params : list ParamDecl) (transportParamsCount : Z) (transportParams : list ParamDecl)
    : M (Z * list ParamDecl) :=
  match params with
  | [] => ret (transportParamsCount, transportParams)
  | param :: rest =>
      let paramTy := ctorMapTypeIntoContext ctor (getInterfaceType param) in
      let* conformance := conformsToProtocol paramTy protocolDecl module in
      if isEqual paramTy protocolTy || negb (isInvalid conformance) then
        checkDistributedActorConstructor_params ctor protocolDecl protocolTy module rest
          (int_wrap (transportParamsCount + 1)) (transportParams ++ [param])
      else
        checkDistributedActorConstructor_params ctor protocolDecl protocolTy module rest
          transportParamsCount transportParams
  end.

Definition checkDistributedActorConstructor (decl : ClassDecl) (ctor : ConstructorDecl)
  : M unit :=
  (* bail out unless distributed actor *)
  let* isActor := isDistributedActor (NTD_Class decl) in
  if negb isActor then ret tt
  else
    (* Only designated initializers need extra checks *)
    if negb (isDesignatedInit ctor) then ret tt
    else
      let module := ctorParentModule ctor in
      let protocolDecl := getProtocol C ActorTransport in
      let protocolTy := getDeclaredInterfaceType protocolDecl in
      let* '(transportParamsCount, _) :=
        checkDistributedActorConstructor_params ctor protocolDecl protocolTy module
          (ctorParameters ctor) 0 [] in
      (* missing transport parameter *)
      if Z.eqb transportParamsCount 0 then
        diagnose_ (At_Ctor ctor)
          (distributed_actor_designated_ctor_missing_transport_param (ctorName ctor))
      (* ok! We found exactly one transport parameter *)
      else if Z.eqb transportParamsCount 1 then ret tt
      else
        diagnose_ (At_Ctor ctor)
          (distributed_actor_designated_ctor_must_have_one_transport_param
             (ctorName ctor) transportParamsCount).

(** *** The actor declaration checker *)

(** Returns the class declaration as the call leaves it. *)
Definition checkDistributedActor (decl : ClassDecl) : M ClassDecl :=
  (* ==== Ensure the _Distributed module is available *)
  let* available := ensureDistributedModuleLoaded decl in
  if negb available then ret decl
  else
    (* ==== Constructors *)
    let* decl := getDefaultInitializer decl in
    forEach
      (fun member =>
         match dyn_cast_ConstructorDecl member with
         | Some ctor => checkDistributedActorConstructor decl ctor
         | None => ret tt
         end)
      (getMembers decl) >>
    (* ==== Properties *)
    checkDistributedActorProperties decl >>
    addImplicitDistributedActorMembersToClass decl.

End Pass.

(** ** The words of the specification

    The notions the specification's sentences use, defined on the declaration
    tree and the collaborators' answers, independently of the pass. *)
Section Vocabulary.
Context `{Collaborators}.

(** "type T conforms to protocol P in module M" *)
Definition conformsTo (type : Ty) (kind : KnownProtocolKind) (module : ModuleDecl) : bool :=
  negb (isInvalid (lookupConformance type (getProtocol C kind) module)).

(** The Codable contract: both the encoding and the decoding capability. *)
Definition isCodable (func : FuncDecl) (type : Ty) : bool :=
  conformsTo type Encodable (getParentModule func)
  && conformsTo type Decodable (getParentModule func).

Definition parameterType (func : FuncDecl) (param : ParamDecl) : Ty :=
  mapTypeIntoContext func (getInterfaceType param).

Definition resultType (func : FuncDecl) : Ty :=
  mapTypeIntoContext func (getResultInterfaceType func).

Definition parameterCodable (func : FuncDecl) (param : ParamDecl) : bool :=
  isCodable func (parameterType func param).

(** "all parameters pass the Codable checks" *)
Definition parametersCodable (func : FuncDecl) : bool :=
  forallb (parameterCodable func) (getParameters func).

(** "the result passes": it is void, or Codable. *)
Definition resultCodable (func : FuncDecl) : bool :=
  isVoid (resultType func) || isCodable func (resultType func).

(** One conformance query of [func], as it appears in a trace. *)
Definition query (func : FuncDecl) (type : Ty) (kind : KnownProtocolKind) : Event :=
  ConformsToProtocol type (getProtocol C kind) (getParentModule func).

(** The queries made for a type that is asked about [first], then [second]:
    the second question is put only when the first is answered yes. *)
Definition queriesFor (func : FuncDecl) (type : Ty) (first second : KnownProtocolKind)
  : list Event :=
  if conformsTo type first (getParentModule func)
  then [query func type first; query func type second]
  else [query func type first].

Definition parameterQueries (func : FuncDecl) (params : list ParamDecl) : list Event :=
  flat_map (fun param => queriesFor func (parameterType func param) Encodable Decodable) params.

Definition resultQueries (func : FuncDecl) : list Event :=
  if isVoid (resultType func) then []
  else queriesFor func (resultType func) Decodable Encodable.

(** "the enclosing declaration is a class classified as a distributed actor" *)
Definition enclosedInDistributedActor (func : FuncDecl) : bool :=
  match getParent func with
  | DC_Nominal (NTD_Class actorDecl) => isExplicitDistributedActor actorDecl
  | _ => false
  end.

Definition withDistributedActorAttr (flag : bool) (func : FuncDecl) : FuncDecl :=
  {| getBaseIdentifier := getBaseIdentifier func;
     hasDistributedActorAttr := flag;
     isSynthesized := isSynthesized func;
     getParameters := getParameters func;
     getResultInterfaceType := getResultInterfaceType func;
     mapTypeIntoContext := mapTypeIntoContext func;
     getParentModule := getParentModule func;
     getParent := getParent func |}.

Definition withExplicitDistributedActor (flag : bool) (decl : ClassDecl) : ClassDecl :=
  {| classPtr := classPtr decl;
     className := className decl;
     isExplicitDistributedActor := flag;
     getMembers := getMembers decl |}.

(** "a parameter whose contextual type equals the transport protocol's
    declared interface type or conforms to that protocol" *)
Definition isTransportParam (ctor : ConstructorDecl) (param : ParamDecl) : bool :=
  let paramTy := ctorMapTypeIntoContext ctor (getInterfaceType param) in
  isEqual paramTy (getDeclaredInterfaceType (getProtocol C ActorTransport))
  || conformsTo paramTy ActorTransport (ctorParentModule ctor).

Definition transportParamCount (ctor : ConstructorDecl) : nat :=
  length (List.filter (isTransportParam ctor) (ctorParameters ctor)).

(** The three outcomes of the constructor check, by the number of transport
    parameters. *)
Definition constructorVerdict (ctor : ConstructorDecl) (count : nat)
  : list (DiagSite * Diag) :=
  match count with
  | O => [(At_Ctor ctor,
           distributed_actor_designated_ctor_missing_transport_param (ctorName ctor))]
  | S O => []
  | _ => [(At_Ctor ctor,
           distributed_actor_designated_ctor_must_have_one_transport_param
             (ctorName ctor) (Z.of_nat count))]
  end.

(** "one of the two reserved identifiers (transport reference, identity)" *)
Definition isReservedIdentifier (id : Identifier) : bool :=
  bool_decide (id = Id_actorTransport C ∨ id = Id_id C).

(** The property members of a class that use a reserved identifier, in
    declaration order. *)
Definition reservedProperties (decl : ClassDecl) : list VarDecl :=
  omap (fun member =>
          match member with
          | D_Var prop => if isReservedIdentifier (varName prop) then Some prop else None
          | _ => None
          end)
       (getMembers decl).

Definition reservedPropertyDiagnostic (prop : VarDecl) : Event :=
  Diagnosed (At_Var prop) (distributed_actor_user_defined_special_property (varName prop)).

Definition isMissingModuleDiagnostic (e : Event) : bool :=
  match e with
  | Diagnosed _ distributed_actor_needs_explicit_distributed_import => true
  | _ => false
  end.

(** The constructors among the members of a class, in declaration order. *)
Definition constructors (decl : ClassDecl) : list ConstructorDecl :=
  omap dyn_cast_ConstructorDecl (getMembers decl).

(** The trace of the parameter loop of the constructor check: one conformance
    query per parameter. *)
Definition transportQueries (ctor : ConstructorDecl) (params : list ParamDecl) : list Event :=
  map (fun param =>
         ConformsToProtocol (ctorMapTypeIntoContext ctor (getInterfaceType param))
           (getProtocol C ActorTransport) (ctorParentModule ctor))
      params.

Definition parameterDiagnostic (func : FuncDecl) (param : ParamDecl) : Event :=
  Diagnosed (At_Func func)
    (distributed_actor_func_param_not_codable (getArgumentName param) (getInterfaceType param)).

Definition resultDiagnostic (func : FuncDecl) : Event :=
  Diagnosed (At_Func func)
    (distributed_actor_func_result_not_codable (getResultInterfaceType func)).

Definition remoteDiagnostic (func : FuncDecl) : Event :=
  Diagnosed (At_Func func)
    (distributed_actor_remote_func_implemented_manually
       (getBaseIdentifier func) (String.append "_remote_" (getBaseIdentifier func))).

(** What [if (diagnose) ...diagnose(d)] leaves in the trace. *)
Definition whenDiagnosing (diagnose : bool) (d : Event) : list Event :=
  if diagnose then [d] else [].

Definition isConformanceQuery (e : Event) : bool :=
  match e with ConformsToProtocol _ _ _ => true | _ => false end.

(** "the enclosing class declares a _remote counterpart that is not flagged
    as compiler-synthesized" *)
Definition remoteImplementedByHand (func : FuncDecl) : bool :=
  match dyn_cast_ClassDecl_ctx (getParent func) with
  | Some actorDecl =>
      match remoteFuncOf actorDecl func with
      | Some remote => negb (isSynthesized remote)
      | None => false
      end
  | None => false
  end.

(** How a call of the function validator ends, read off the declaration: a
    problem if the signature is not Codable; otherwise, inside a distributed
    actor, a problem exactly if the remote counterpart is hand-written. *)
Definition functionVerdict (func : FuncDecl) : Outcome bool :=
  if negb (parametersCodable func && resultCodable func) then Returned true
  else if enclosedInDistributedActor func then Returned (remoteImplementedByHand func)
  else AssertionFailed.

(** A diagnostic of a trace, back as the event it came from. *)
Definition eventOfDiagnostic (reported : DiagSite * Diag) : Event :=
  Diagnosed reported.1 reported.2.

Definition isRemoteLookup (e : Event) : bool :=
  match e with LookupDirectRemoteFunc _ _ => true | _ => false end.

(** What a check that reports at most once adds to the trace. *)
Definition reportedAt (site : DiagSite) (reported : option Diag) : list Event :=
  match reported with Some d => [Diagnosed site d] | None => [] end.

(** The same initializer with another parameter list. *)
Definition withCtorParameters (params : list ParamDecl) (ctor : ConstructorDecl)
  : ConstructorDecl :=
  {| ctorName := ctorName ctor;
     getInitKind := getInitKind ctor;
     ctorParameters := params;
     ctorMapTypeIntoContext := ctorMapTypeIntoContext ctor;
     ctorParentModule := ctorParentModule ctor |}.

(** The same class with another member list. *)
Definition withMembers (members : list Decl) (decl : ClassDecl) : ClassDecl :=
  {| classPtr := classPtr decl;
     className := className decl;
     isExplicitDistributedActor := isExplicitDistributedActor decl;
     getMembers := members |}.

(** The diagnostic a reserved property gets. *)
Definition reservedPropertyReport (prop : VarDecl) : DiagSite * Diag :=
  (At_Var prop, distributed_actor_user_defined_special_property (varName prop)).

(** What the steps of [checkDistributedActor] behind the gate add to the
    trace: the default-initializer synthesis, the check of every constructor
    of the class as the synthesis left it, its property check, and the
    synthesis of the implicit members. *)
Definition checksTrace (decl : ClassDecl) : list Event :=
  let decl1 := addMembers decl (synthesizedDefaultInitializer decl) in
  GetDefaultInitializer decl
  :: flat_map (fun ctor => traceOf (checkDistributedActorConstructor decl1 ctor) ∅)
       (constructors decl1)
  ++ map reservedPropertyDiagnostic (reservedProperties decl1)
  ++ [AddImplicitDistributedActorMembersToClass decl1].

End Vocabulary.

(** ** A small program to run the pass on

    [distributed actor class Greeter], with a few initializers, properties and
    functions, in a context that has the [_Distributed] module loaded or not. *)
Module Scenario.

Inductive SwiftTy :=
  | T_Void | T_String | T_Int
  | T_Socket               (* neither Encodable nor Decodable *)
  | T_Encoder              (* Encodable only *)
  | T_ActorTransport       (* the protocol type itself *)
  | T_FakeTransport.       (* a struct conforming to ActorTransport *)

Definition SwiftTy_eqb (a b : SwiftTy) : bool :=
  match a, b with
  | T_Void, T_Void | T_String, T_String | T_Int, T_Int | T_Socket, T_Socket
  | T_Encoder, T_Encoder | T_ActorTransport, T_ActorTransport
  | T_FakeTransport, T_FakeTransport => true
  | _, _ => false
  end.

Definition EncodableDecl : ProtocolDecl := mkProtocolDecl 1%positive "Encodable" [].
Definition DecodableDecl : ProtocolDecl := mkProtocolDecl 2%positive "Decodable" [].
Definition ActorTransportDecl : ProtocolDecl := mkProtocolDecl 3%positive "ActorTransport" [].
Definition DistributedActorDecl : ProtocolDecl := mkProtocolDecl 4%positive "DistributedActor" [].
Definition WorkerDecl : ProtocolDecl := mkProtocolDecl 5%positive "Worker" [DistributedActorDecl].
Definition ForemanDecl : ProtocolDecl := mkProtocolDecl 6%positive "Foreman" [EncodableDecl; WorkerDecl].

(** Protocol types do not conform to their protocol; [T_FakeTransport] does. *)
Definition conforms (type : SwiftTy) (protocol : ProtocolDecl) (module : ModuleDecl)
  : ProtocolConformanceRef :=
  match protocolPtr protocol, type with
  | 1%positive, (T_String | T_Int | T_Encoder) => ValidConformance
  | 2%positive, (T_String | T_Int) => ValidConformance
  | 3%positive, T_FakeTransport => ValidConformance
  | _, _ => InvalidConformance
  end.

Definition swift : TypeSystem :=
  {| Ty := SwiftTy;
     isEqual := SwiftTy_eqb;
     isVoid := fun type => SwiftTy_eqb type T_Void;
     lookupConformance := conforms;
     getDeclaredInterfaceType := fun _ => T_ActorTransport |}.

Definition main : ModuleDecl := mkModuleDecl "main".

Definition param (label : Identifier) (type : SwiftTy) : @ParamDecl swift :=
  @mkParamDecl swift label type.

Definition init (kind : CtorInitializerKind) (params : list (@ParamDecl swift))
  : @ConstructorDecl swift :=
  @mkConstructorDecl swift "init" kind params (fun type => type) main.

Definition initNoTransport := init Designated [param "name" T_String].
Definition initOneTransport :=
  init Designated [param "name" T_String; param "transport" T_FakeTransport].
Definition initTwoTransports :=
  init Designated [param "transport1" T_FakeTransport; param "transport2" T_ActorTransport].
Definition initConvenience := init Convenience [param "name" T_String].

Definition Greeter : @ClassDecl swift :=
  @mkClassDecl swift 10%positive "Greeter" true
    [ D_Constructor initNoTransport;
      D_Var (mkVarDecl "id");
      D_Func "id";
      D_Constructor initTwoTransports;
      D_Var (mkVarDecl "name");
      D_Var (mkVarDecl "actorTransport");
      D_Constructor initOneTransport;
      D_Var (mkVarDecl "id") ].

(** The same members on a class that is not a distributed actor. *)
Definition PlainGreeter : @ClassDecl swift :=
  @mkClassDecl swift 11%positive "PlainGreeter" false (getMembers Greeter).

Definition func (base : Identifier) (synthesized : bool) (params : list (@ParamDecl swift))
    (result : SwiftTy) (parent : @DeclContext swift) : @FuncDecl swift :=
  @mkFuncDecl swift base true synthesized params result (fun type => type) main parent.

Definition inGreeter : @DeclContext swift := DC_Nominal (NTD_Class Greeter).

Definition hello := func "hello" false [param "to" T_String] T_Void inGreeter.
Definition send :=
  func "send" false [param "text" T_String; param "via" T_Socket; param "log" T_Socket]
    T_Int inGreeter.
Definition open_ := func "open" false [param "port" T_Int] T_Socket inGreeter.
Definition count := func "count" false [] T_Int inGreeter.
Definition ping := func "ping" false [] T_Void inGreeter.
Definition remote_ping_by_hand := func "_remote_ping" false [] T_Void inGreeter.
Definition remote_count_synthesized := func "_remote_count" true [] T_Int inGreeter.

(** [send] again, declared in a protocol: the enclosing declaration is not a
    class. *)
Definition sendInProtocol :=
  func "send" false [param "text" T_String; param "via" T_Socket] T_Int
    (DC_Nominal (NTD_Protocol WorkerDecl)).
Definition pingInPlainClass :=
  func "ping" false [] T_Void (DC_Nominal (NTD_Class PlainGreeter)).

(** [Greeter] has a hand-written [_remote_ping] and a synthesized
    [_remote_count]. *)
Definition remotes (actorDecl : @ClassDecl swift) (f : @FuncDecl swift)
  : option (@FuncDecl swift) :=
  if String.eqb (getBaseIdentifier f) "ping" then Some remote_ping_by_hand
  else if String.eqb (getBaseIdentifier f) "count" then Some remote_count_synthesized
  else None.

Definition context (loaded : gmap string ModuleDecl) : ASTContext :=
  mkASTContext loaded "_Distributed" "actorTransport" "id" DistributedActorDecl
    (fun kind =>
       match kind with
       | Encodable => EncodableDecl
       | Decodable => DecodableDecl
       | ActorTransport => ActorTransportDecl
       end).

Definition compiler (loaded : gmap string ModuleDecl) : @Collaborators swift :=
  {| C := context loaded;
     remoteFuncOf := remotes;
     synthesizedDefaultInitializer := fun _ => [];
     implicitDistributedActorMembers :=
       fun _ => [D_Var (mkVarDecl "id"); D_Var (mkVarDecl "actorTransport")] |}.

Definition withDistributed : @Collaborators swift :=
  compiler {[ "_Distributed" := mkModuleDecl "_Distributed" ]}.
Definition withoutDistributed : @Collaborators swift :=
  compiler {[ "Swift" := mkModuleDecl "Swift" ]}.

End Scenario.


(** ** Properties *)

Lemma inheritsFrom_unfold this super :
  inheritsFrom this super =
  existsb (fun q => sameProtocol q super || inheritsFrom q super) (getInheritedProtocols this).
Proof. destruct this; reflexivity. Qed.

Lemma sameProtocol_ptr p q : sameProtocol p q = true <-> protocolPtr p = protocolPtr q.
Proof. unfold sameProtocol. apply Pos.eqb_eq. Qed.

Lemma inheritsFrom_sound super this :
  inheritsFrom this super = true -> TransitivelyInherits super this.
Proof.
  induction this as [ptr name inherited IH] using ProtocolDecl_inherited_ind.
  rewrite inheritsFrom_unfold. cbn [getInheritedProtocols].
  intros Hex. apply existsb_exists in Hex as (q & Hin & Hq).
  apply orb_true_iff in Hq as [Hsame | Hdeep].
  - eapply inherits_direct; [exact Hin | by apply sameProtocol_ptr].
  - eapply inherits_step; [exact Hin |].
    rewrite Forall_forall in IH. apply IH; [by apply list_elem_of_In | done].
Qed.

Lemma inheritsFrom_complete super this :
  TransitivelyInherits super this -> inheritsFrom this super = true.
Proof.
  induction 1 as [this q Hin Hptr | this q Hin _ IH];
    rewrite inheritsFrom_unfold; apply existsb_exists; exists q; split; try done;
    apply orb_true_iff.
  - left. by apply sameProtocol_ptr.
  - by right.
Qed.

Lemma inheritsFrom_spec super this :
  inheritsFrom this super = true <-> TransitivelyInherits super this.
Proof. split; [apply inheritsFrom_sound | apply inheritsFrom_complete]. Qed.

Section Properties.
Context {TS : TypeSystem} {compiler : Collaborators}.

Implicit Types (cache : gmap positive bool) (func : FuncDecl) (decl : ClassDecl)
  (ctor : ConstructorDecl) (param : ParamDecl) (diagnose : bool).

(** *** Running the monad *)

Lemma run_bind {A B} (m : M A) (k : A -> M B) cache a cache1 trace1 :
  m cache = (Returned a, cache1, trace1) ->
  bind m k cache = ((k a cache1).1.1, (k a cache1).1.2, trace1 ++ (k a cache1).2).
Proof. unfold bind. intros ->. by destruct (k a cache1) as [[? ?] ?]. Qed.

Lemma run_bind_failed {A B} (m : M A) (k : A -> M B) cache cache1 trace1 :
  m cache = (AssertionFailed, cache1, trace1) ->
  bind m k cache = (AssertionFailed, cache1, trace1).
Proof. unfold bind. by intros ->. Qed.

Lemma diagnostics_app (trace1 trace2 : list Event) :
  diagnostics (trace1 ++ trace2) = diagnostics trace1 ++ diagnostics trace2.
Proof. apply omap_app. Qed.

Lemma calls_app (trace1 trace2 : list Event) :
  calls (trace1 ++ trace2) = calls trace1 ++ calls trace2.
Proof. apply List.filter_app. Qed.

Lemma run_conformsToProtocol type protocol module cache :
  conformsToProtocol type protocol module cache
  = (Returned (lookupConformance type protocol module), cache,
     [ConformsToProtocol type protocol module]).
Proof. reflexivity. Qed.

(** *** Classification *)

(** C5: [isDistributedActor] answers true exactly for a protocol that is, or
    transitively inherits, the [DistributedActor] protocol and for a class
    carrying the explicit distributed-actor marker; it answers false for
    every other declaration; and its evaluation always returns, emits nothing
    (so no diagnostic) and leaves the evaluator's cache as it was. *)
Theorem isDistributedActor_classification (nominal : NominalTypeDecl) cache :
  exists answer : bool,
    IsDistributedActorRequest_evaluate nominal cache = (Returned answer, cache, [])
    /\ (answer = true <->
        (exists protocol,
            nominal = NTD_Protocol protocol
            /\ (protocolPtr protocol = protocolPtr (getDistributedActorDecl C)
                \/ TransitivelyInherits (getDistributedActorDecl C) protocol))
        \/ (exists classDecl,
               nominal = NTD_Class classDecl
               /\ isExplicitDistributedActor classDecl = true)).
Proof.
  destruct nominal as [protocol | classDecl | name | name]; cbn.
  - eexists; split; [reflexivity |].
    rewrite orb_true_iff, sameProtocol_ptr, inheritsFrom_spec. split.
    + intros Hp. left. by exists protocol.
    + intros [(p & [= <-] & Hp) | (c & [=] & _)]. done.
  - eexists; split; [reflexivity |]. split.
    + intros Hc. right. by exists classDecl.
    + intros [(p & [=] & _) | (c & [= <-] & Hc)]. done.
  - exists false; split; [reflexivity |]. split; [done |].
    intros [(p & [=] & _) | (c & [=] & _)].
  - exists false; split; [reflexivity |]. split; [done |].
    intros [(p & [=] & _) | (c & [=] & _)].
Qed.

(** *** The property validator *)

Lemma run_forEach {A} (body : A -> M unit) (effect : A -> list Event) (range : list A) cache :
  (forall x cache', body x cache' = (Returned tt, cache', effect x)) ->
  forEach body range cache = (Returned tt, cache, flat_map effect range).
Proof.
  intros Hbody. induction range as [| x rest IH]; [reflexivity |].
  cbn [forEach flat_map]. erewrite run_bind by apply Hbody. by rewrite IH.
Qed.

Lemma isReservedIdentifier_eqb id :
  String.eqb id (Id_actorTransport C) || String.eqb id (Id_id C) = isReservedIdentifier id.
Proof.
  unfold isReservedIdentifier.
  destruct (String.eqb_spec id (Id_actorTransport C)), (String.eqb_spec id (Id_id C));
    cbn; symmetry;
    first [apply bool_decide_eq_true_2 | apply bool_decide_eq_false_2];
    first [by left | by right | by intros [? | ?]].
Qed.

Lemma run_checkDistributedActorProperties decl cache :
  checkDistributedActorProperties decl cache
  = (Returned tt, cache, map reservedPropertyDiagnostic (reservedProperties decl)).
Proof.
  unfold checkDistributedActorProperties, reservedProperties.
  erewrite run_forEach with
    (effect := fun member =>
       match member with
       | D_Var prop =>
           if isReservedIdentifier (varName prop) then [reservedPropertyDiagnostic prop] else []
       | _ => []
       end).
  - f_equal. induction (getMembers decl) as [| member rest IH]; [reflexivity |].
    destruct member as [ | prop | | | ]; cbn; try exact IH.
    destruct (isReservedIdentifier (varName prop)); cbn; [by f_equal | exact IH].
  - intros [ | prop | | | ] cache'; try reflexivity.
    cbn. rewrite isReservedIdentifier_eqb.
    by destruct (isReservedIdentifier (varName prop)).
Qed.

Lemma diagnostics_reservedProperties (props : list VarDecl) :
  diagnostics (map reservedPropertyDiagnostic props)
  = map (fun prop => (At_Var prop,
                      distributed_actor_user_defined_special_property (varName prop))) props.
Proof. induction props as [| prop rest IH]; [reflexivity |]. cbn. by f_equal. Qed.

Lemma elem_of_reservedProperties decl prop :
  prop ∈ reservedProperties decl <->
  D_Var prop ∈ getMembers decl /\ isReservedIdentifier (varName prop) = true.
Proof.
  unfold reservedProperties. rewrite list_elem_of_omap. split.
  - intros (member & Hin & Hsel). destruct member as [ | prop' | | | ]; try done.
    destruct (isReservedIdentifier (varName prop')) eqn:Hres; [| done].
    by injection Hsel as ->.
  - intros [Hin Hres]. exists (D_Var prop). by rewrite Hres.
Qed.

(** C7: [checkDistributedActorProperties] walks the whole member list and
    emits, in declaration order, exactly one reserved-property diagnostic for
    every property member named with one of the two reserved identifiers, and
    nothing else: no diagnostic when no property uses a reserved identifier,
    none for a member that is not a property, and an earlier match does not
    stop the scan. *)
Theorem checkDistributedActorProperties_reserved decl cache :
  checkDistributedActorProperties decl cache
  = (Returned tt, cache, map reservedPropertyDiagnostic (reservedProperties decl))
  /\ length (diagnostics (traceOf (checkDistributedActorProperties decl) cache))
     = length (reservedProperties decl)
  /\ (forall prop,
         prop ∈ reservedProperties decl <->
         D_Var prop ∈ getMembers decl
         /\ (varName prop = Id_actorTransport C \/ varName prop = Id_id C)).
Proof.
  rewrite run_checkDistributedActorProperties. split; [reflexivity |]. split.
  - unfold traceOf. rewrite run_checkDistributedActorProperties. cbn [snd].
    rewrite diagnostics_reservedProperties. by rewrite length_map.
  - intros prop. rewrite elem_of_reservedProperties.
    unfold isReservedIdentifier. by rewrite bool_decide_eq_true.
Qed.

(** *** The constructor validator *)

Lemma int_wrap_id z : 0 <= z <= INT_MAX -> int_wrap z = z.
Proof. unfold int_wrap, INT_MAX. intros Hz. rewrite Z.mod_small; lia. Qed.

Lemma run_isDistributedActor_class decl cache :
  isDistributedActor (NTD_Class decl) cache
  = (Returned (isExplicitDistributedActor decl), cache, []).
Proof. reflexivity. Qed.

Lemma diagnostics_transportQueries ctor params :
  diagnostics (transportQueries ctor params) = [].
Proof. induction params as [| param rest IH]; [reflexivity | exact IH]. Qed.

(** The loop counts the transport parameters, provided the count fits [int]. *)
Lemma run_checkDistributedActorConstructor_params ctor params count found cache :
  0 <= count ->
  count + Z.of_nat (length (List.filter (isTransportParam ctor) params)) <= INT_MAX ->
  checkDistributedActorConstructor_params ctor (getProtocol C ActorTransport)
    (getDeclaredInterfaceType (getProtocol C ActorTransport)) (ctorParentModule ctor)
    params count found cache
  = (Returned (count + Z.of_nat (length (List.filter (isTransportParam ctor) params)),
               found ++ List.filter (isTransportParam ctor) params),
     cache, transportQueries ctor params).
Proof.
  revert count found.
  induction params as [| param rest IH]; intros count found Hcount Hfits.
  - cbn. by rewrite Z.add_0_r, app_nil_r.
  - cbn [checkDistributedActorConstructor_params List.filter transportQueries map].
    erewrite run_bind by apply run_conformsToProtocol.
    fold (conformsTo (ctorMapTypeIntoContext ctor (getInterfaceType param)) ActorTransport
            (ctorParentModule ctor)).
    fold (isTransportParam ctor param).
    cbn [List.filter] in Hfits.
    destruct (isTransportParam ctor param); cbn [length] in *.
    + rewrite int_wrap_id by lia. rewrite IH by lia. rewrite <- app_assoc.
      replace (count + 1 + Z.of_nat (length (List.filter (isTransportParam ctor) rest)))
        with (count + Z.of_nat (S (length (List.filter (isTransportParam ctor) rest))))
        by lia.
      reflexivity.
    + rewrite IH by lia. reflexivity.
Qed.

(** C1: on a class classified as a distributed actor and a designated
    initializer, [checkDistributedActorConstructor] returns having emitted
    the diagnostics that [constructorVerdict] assigns to the number of
    transport parameters: the missing-transport-parameter diagnostic for 0,
    none for 1, and for 2 or more the must-have-exactly-one diagnostic
    carrying that number.  On any other class or initializer it returns
    without emitting anything or asking any question.  (The number of
    transport parameters is assumed to fit the [int] that counts them.) *)
Theorem checkDistributedActorConstructor_verdict decl ctor cache :
  Z.of_nat (transportParamCount ctor) <= INT_MAX ->
  (outcomeOf (isDistributedActor (NTD_Class decl)) cache = Returned true ->
   isDesignatedInit ctor = true ->
   exists trace,
     checkDistributedActorConstructor decl ctor cache = (Returned tt, cache, trace)
     /\ diagnostics trace = constructorVerdict ctor (transportParamCount ctor))
  /\ (outcomeOf (isDistributedActor (NTD_Class decl)) cache = Returned false
      \/ isDesignatedInit ctor = false ->
      checkDistributedActorConstructor decl ctor cache = (Returned tt, cache, [])).
Proof.
  intros Hfits. unfold outcomeOf. rewrite run_isDistributedActor_class. cbn [fst].
  unfold checkDistributedActorConstructor.
  erewrite run_bind by apply run_isDistributedActor_class.
  split.
  - intros [= ->] ->. cbn [negb].
    erewrite run_bind
      by (apply run_checkDistributedActorConstructor_params; [lia | exact Hfits]).
    rewrite Z.add_0_l. fold (transportParamCount ctor).
    destruct (transportParamCount ctor) as [| [| n]] eqn:Hcount.
    + eexists. split; [reflexivity |]. cbn -[diagnostics transportQueries].
      by rewrite diagnostics_app, diagnostics_transportQueries.
    + eexists. split; [reflexivity |]. cbn -[diagnostics transportQueries].
      by rewrite diagnostics_app, diagnostics_transportQueries.
    + replace (Z.eqb (Z.of_nat (S (S n))) 0) with false by (symmetry; apply Z.eqb_neq; lia).
      replace (Z.eqb (Z.of_nat (S (S n))) 1) with false by (symmetry; apply Z.eqb_neq; lia).
      eexists. split; [reflexivity |]. cbn -[diagnostics transportQueries Z.of_nat].
      by rewrite diagnostics_app, diagnostics_transportQueries.
  - intros [[= ->] | ->]; [reflexivity |].
    by destruct (isExplicitDistributedActor decl).
Qed.

(** C10: [checkDistributedActorProperties] has no distributed-actor guard.
    What it does does not depend on the class's distributed-actor marker; on
    a class that [isDistributedActor] rejects it still emits one diagnostic
    per reserved property, where [checkDistributedActorConstructor] on the
    same class does nothing. *)
Theorem checkDistributedActorProperties_unguarded decl cache :
  (forall flag,
      traceOf (checkDistributedActorProperties (withExplicitDistributedActor flag decl)) cache
      = traceOf (checkDistributedActorProperties decl) cache)
  /\ outcomeOf (isDistributedActor (NTD_Class (withExplicitDistributedActor false decl))) cache
     = Returned false
  /\ checkDistributedActorProperties (withExplicitDistributedActor false decl) cache
     = (Returned tt, cache, map reservedPropertyDiagnostic (reservedProperties decl))
  /\ (forall ctor,
         checkDistributedActorConstructor (withExplicitDistributedActor false decl) ctor cache
         = (Returned tt, cache, [])).
Proof.
  split; [| split; [| split]].
  - intros flag. unfold traceOf. by rewrite !run_checkDistributedActorProperties.
  - reflexivity.
  - by rewrite run_checkDistributedActorProperties.
  - reflexivity.
Qed.

(** *** The function validator *)

Lemma first_offender {A} (test : A -> bool) (l : list A) :
  forallb test l = false ->
  exists before x after,
    l = before ++ x :: after /\ forallb test before = true /\ test x = false.
Proof.
  induction l as [| y rest IH]; [done |]. cbn [forallb].
  destruct (test y) eqn:Hy; cbn [andb].
  - intros Hrest. destruct (IH Hrest) as (before & x & after & -> & Hbefore & Hx).
    exists (y :: before), x, after. cbn [forallb]. by rewrite Hy, Hbefore.
  - intros _. by exists [], y, rest.
Qed.

(** The two-sided question [isInvalid first || isInvalid second]. *)
Lemma run_notCodable func type first second cache :
  orElse
    (let* c := conformsToProtocol type (getProtocol C first) (getParentModule func) in
     ret (isInvalid c))
    (let* c := conformsToProtocol type (getProtocol C second) (getParentModule func) in
     ret (isInvalid c)) cache
  = (Returned (negb (conformsTo type first (getParentModule func)
                     && conformsTo type second (getParentModule func))),
     cache, queriesFor func type first second).
Proof.
  unfold orElse, queriesFor, conformsTo, conformsToProtocol, query, bind, emit, ret.
  cbn.
  destruct (lookupConformance type (getProtocol C first) (getParentModule func)); cbn;
    [reflexivity |].
  by destruct (lookupConformance type (getProtocol C second) (getParentModule func)).
Qed.

Lemma run_params_pass func diagnose params cache :
  forallb (parameterCodable func) params = true ->
  checkDistributedFunction_params func diagnose (getProtocol C Encodable)
    (getProtocol C Decodable) (getParentModule func) params cache
  = (Returned None, cache, parameterQueries func params).
Proof.
  induction params as [| param rest IH]; [reflexivity |].
  cbn [forallb]. intros [Hparam Hrest]%andb_true_iff.
  cbn [checkDistributedFunction_params parameterQueries flat_map].
  erewrite run_bind by apply run_notCodable.
  unfold parameterCodable, isCodable, parameterType in Hparam. rewrite Hparam.
  cbn [negb fst snd]. by rewrite IH.
Qed.

Lemma run_params_offender func diagnose before offender after cache :
  forallb (parameterCodable func) before = true ->
  parameterCodable func offender = false ->
  checkDistributedFunction_params func diagnose (getProtocol C Encodable)
    (getProtocol C Decodable) (getParentModule func) (before ++ offender :: after) cache
  = (Returned (Some true), cache,
     parameterQueries func before
     ++ queriesFor func (parameterType func offender) Encodable Decodable
     ++ whenDiagnosing diagnose (parameterDiagnostic func offender)).
Proof.
  intros Hbefore Hoffender.
  induction before as [| param rest IH]; cbn [app forallb] in *.
  - cbn [checkDistributedFunction_params parameterQueries flat_map app].
    erewrite run_bind by apply run_notCodable.
    unfold parameterCodable, isCodable, parameterType in Hoffender. rewrite Hoffender.
    by destruct diagnose.
  - apply andb_true_iff in Hbefore as [Hparam Hrest].
    cbn [checkDistributedFunction_params parameterQueries flat_map].
    erewrite run_bind by apply run_notCodable.
    unfold parameterCodable, isCodable, parameterType in Hparam. rewrite Hparam.
    cbn [negb fst snd]. rewrite (IH Hrest). by rewrite <- app_assoc.
Qed.

Lemma run_remote func diagnose cache :
  checkDistributedFunction_remote func diagnose cache
  = match dyn_cast_ClassDecl_ctx (getParent func) with
    | None => (AssertionFailed, cache, [])
    | Some actorDecl =>
        if isExplicitDistributedActor actorDecl then
          match remoteFuncOf actorDecl func with
          | Some remote =>
              if isSynthesized remote
              then (Returned false, cache, [LookupDirectRemoteFunc actorDecl func])
              else (Returned true, cache,
                    LookupDirectRemoteFunc actorDecl func
                    :: whenDiagnosing diagnose (remoteDiagnostic func))
          | None => (Returned false, cache, [LookupDirectRemoteFunc actorDecl func])
          end
        else (AssertionFailed, cache, [])
    end.
Proof.
  unfold checkDistributedFunction_remote.
  destruct (dyn_cast_ClassDecl_ctx (getParent func)) as [actorDecl |]; [| reflexivity].
  unfold bind at 1. rewrite run_isDistributedActor_class.
  destruct (isExplicitDistributedActor actorDecl); [| reflexivity].
  unfold lookupDirectRemoteFunc, bind, emit, ret, assert_. cbn.
  destruct (remoteFuncOf actorDecl func) as [remote |]; [| reflexivity].
  destruct (isSynthesized remote); [reflexivity |]. by destruct diagnose.
Qed.

(** The whole function, by the three ways it can go. *)
Lemma run_checkDistributedFunction_offender func diagnose before offender after cache :
  getParameters func = before ++ offender :: after ->
  forallb (parameterCodable func) before = true ->
  parameterCodable func offender = false ->
  checkDistributedFunction func diagnose cache
  = (Returned true, cache,
     parameterQueries func before
     ++ queriesFor func (parameterType func offender) Encodable Decodable
     ++ whenDiagnosing diagnose (parameterDiagnostic func offender)).
Proof.
  intros Hparams Hbefore Hoffender. unfold checkDistributedFunction. rewrite Hparams.
  erewrite run_bind by by apply run_params_offender.
  cbn. by rewrite !app_nil_r.
Qed.

Lemma run_checkDistributedFunction_result_bad func diagnose cache :
  parametersCodable func = true ->
  resultCodable func = false ->
  checkDistributedFunction func diagnose cache
  = (Returned true, cache,
     parameterQueries func (getParameters func)
     ++ queriesFor func (resultType func) Decodable Encodable
     ++ whenDiagnosing diagnose (resultDiagnostic func)).
Proof.
  intros Hparams [Hvoid Hresult]%orb_false_iff. unfold checkDistributedFunction.
  erewrite run_bind by by apply run_params_pass.
  fold (resultType func). rewrite Hvoid. cbn [negb].
  erewrite run_bind by apply run_notCodable.
  unfold isCodable in Hresult. rewrite andb_comm, Hresult.
  by destruct diagnose.
Qed.

Lemma run_checkDistributedFunction_signature_ok func diagnose cache :
  parametersCodable func = true ->
  resultCodable func = true ->
  checkDistributedFunction func diagnose cache
  = (outcomeOf (checkDistributedFunction_remote func diagnose) cache,
     cacheOf (checkDistributedFunction_remote func diagnose) cache,
     parameterQueries func (getParameters func) ++ resultQueries func
     ++ traceOf (checkDistributedFunction_remote func diagnose) cache).
Proof.
  intros Hparams Hresult. unfold checkDistributedFunction, resultQueries.
  erewrite run_bind by by apply run_params_pass.
  fold (resultType func). unfold resultCodable in Hresult.
  destruct (isVoid (resultType func)); cbn [negb orb] in *.
  - by erewrite run_bind by reflexivity.
  - erewrite run_bind by apply run_notCodable.
    unfold isCodable in Hresult. rewrite andb_comm, Hresult. reflexivity.
Qed.

Lemma calls_queriesFor func type first second :
  calls (queriesFor func type first second) = queriesFor func type first second.
Proof. unfold queriesFor. by destruct (conformsTo _ _ _). Qed.

Lemma calls_parameterQueries func params :
  calls (parameterQueries func params) = parameterQueries func params.
Proof.
  induction params as [| param rest IH]; [reflexivity |].
  cbn [parameterQueries flat_map]. rewrite calls_app, calls_queriesFor. by f_equal.
Qed.

Lemma calls_resultQueries func : calls (resultQueries func) = resultQueries func.
Proof. unfold resultQueries. destruct (isVoid _); [reflexivity | apply calls_queriesFor]. Qed.

Lemma diagnostics_calls (trace : list Event) : calls trace = trace -> diagnostics trace = [].
Proof.
  induction trace as [| e rest IH]; [reflexivity |].
  destruct e; cbn; intros Heq; try (injection Heq as Heq; by apply IH).
  exfalso. assert (Hlen : length (calls rest) = S (length rest)) by (unfold calls; by rewrite Heq).
  pose proof (List.filter_length_le isCall rest) as Hle. unfold calls in Hlen. lia.
Qed.

Lemma calls_whenDiagnosing diagnose site d :
  calls (whenDiagnosing diagnose (Diagnosed site d)) = [].
Proof. by destruct diagnose. Qed.

Lemma outcome_checkDistributedFunction func diagnose cache :
  outcomeOf (checkDistributedFunction func diagnose) cache = functionVerdict func
  /\ cacheOf (checkDistributedFunction func diagnose) cache = cache.
Proof.
  unfold functionVerdict, outcomeOf, cacheOf.
  destruct (parametersCodable func) eqn:Hparams; cbn [andb negb].
  - destruct (resultCodable func) eqn:Hresult; cbn [negb].
    + rewrite run_checkDistributedFunction_signature_ok by done.
      unfold outcomeOf, cacheOf. rewrite run_remote.
      unfold enclosedInDistributedActor, remoteImplementedByHand, dyn_cast_ClassDecl_ctx.
      destruct (getParent func) as [[ | actorDecl | | ] | | ]; try done. cbn.
      destruct (isExplicitDistributedActor actorDecl); [| done].
      destruct (remoteFuncOf actorDecl func) as [remote |]; [| done].
      by destruct (isSynthesized remote).
    + by rewrite run_checkDistributedFunction_result_bad.
  - destruct (first_offender _ _ Hparams) as (before & offender & after & Hl & Hb & Ho).
    by erewrite run_checkDistributedFunction_offender.
Qed.

(** C2: when every parameter passes the Codable checks, a void result type
    is not asked about at all - after the parameters' queries the run goes
    straight to the remote-counterpart check, which makes no conformance
    query and alone decides how the call ends, and no result diagnostic
    appears; a result type that is not void
    and fails the decoding or the encoding conformance makes the function
    return true, after the queries on it, with the result diagnostic citing
    the declared result type emitted exactly when [diagnose] is set. *)
Theorem checkDistributedFunction_result func diagnose cache :
  parametersCodable func = true ->
  (isVoid (resultType func) = true ->
   checkDistributedFunction func diagnose cache
   = (outcomeOf (checkDistributedFunction_remote func diagnose) cache,
      cacheOf (checkDistributedFunction_remote func diagnose) cache,
      parameterQueries func (getParameters func)
      ++ traceOf (checkDistributedFunction_remote func diagnose) cache)
   /\ existsb isConformanceQuery
        (traceOf (checkDistributedFunction_remote func diagnose) cache) = false
   /\ forall site type,
        (site, distributed_actor_func_result_not_codable type)
        ∉ diagnostics (traceOf (checkDistributedFunction func diagnose) cache))
  /\ (isVoid (resultType func) = false ->
      conformsTo (resultType func) Decodable (getParentModule func) = false
      \/ conformsTo (resultType func) Encodable (getParentModule func) = false ->
      checkDistributedFunction func diagnose cache
      = (Returned true, cache,
         parameterQueries func (getParameters func)
         ++ queriesFor func (resultType func) Decodable Encodable
         ++ (if diagnose
             then [Diagnosed (At_Func func)
                     (distributed_actor_func_result_not_codable
                        (getResultInterfaceType func))]
             else []))).
Proof.
  intros Hparams. split.
  - intros Hvoid.
    assert (Hrun := run_checkDistributedFunction_signature_ok func diagnose cache Hparams).
    unfold resultCodable, resultQueries in Hrun. rewrite Hvoid in Hrun.
    specialize (Hrun eq_refl). cbn [app] in Hrun. split; [exact Hrun |]. split.
    { unfold traceOf. rewrite run_remote.
      destruct (dyn_cast_ClassDecl_ctx (getParent func)) as [actorDecl |]; [| done].
      destruct (isExplicitDistributedActor actorDecl); [| done].
      destruct (remoteFuncOf actorDecl func) as [remote |]; [| done].
      destruct (isSynthesized remote); [done |]. by destruct diagnose. }
    intros site type. unfold traceOf at 1. rewrite Hrun. cbn [snd].
    rewrite diagnostics_app, (diagnostics_calls _ (calls_parameterQueries _ _)).
    cbn [app]. unfold traceOf. rewrite run_remote.
    destruct (dyn_cast_ClassDecl_ctx (getParent func)) as [actorDecl |]; [| apply not_elem_of_nil].
    destruct (isExplicitDistributedActor actorDecl); [| apply not_elem_of_nil].
    destruct (remoteFuncOf actorDecl func) as [remote |]; [| apply not_elem_of_nil].
    destruct (isSynthesized remote); [apply not_elem_of_nil |].
    destruct diagnose; cbn; [| apply not_elem_of_nil].
    by intros [=]%list_elem_of_singleton.
  - intros Hvoid Hfails.
    apply run_checkDistributedFunction_result_bad; [done |].
    unfold resultCodable, isCodable. rewrite Hvoid. cbn [orb].
    apply andb_false_iff. tauto.
Qed.

(** C3: when a parameter fails the Codable requirement,
    [checkDistributedFunction func true] asks about the parameters up to and
    including the first failing one, emits one diagnostic, naming that
    parameter's label and declared type, and returns true.  Nothing is asked
    about the parameters after it - whether or not more of them fail - nor
    about the result type, and the remote counterpart is not looked up. *)
Theorem checkDistributedFunction_first_offender func cache before offender after :
  getParameters func = before ++ offender :: after ->
  forallb (parameterCodable func) before = true ->
  parameterCodable func offender = false ->
  checkDistributedFunction func true cache
  = (Returned true, cache,
     parameterQueries func before
     ++ queriesFor func (parameterType func offender) Encodable Decodable
     ++ [Diagnosed (At_Func func)
           (distributed_actor_func_param_not_codable
              (getArgumentName offender) (getInterfaceType offender))])
  /\ diagnostics (traceOf (checkDistributedFunction func true) cache)
     = [(At_Func func,
         distributed_actor_func_param_not_codable
           (getArgumentName offender) (getInterfaceType offender))]
  /\ calls (traceOf (checkDistributedFunction func true) cache)
     = parameterQueries func before
       ++ queriesFor func (parameterType func offender) Encodable Decodable.
Proof.
  intros Hparams Hbefore Hoffender.
  assert (Hrun := run_checkDistributedFunction_offender func true _ _ _ cache
                    Hparams Hbefore Hoffender).
  split; [exact Hrun |]. unfold traceOf. rewrite Hrun. cbn [snd]. split.
  - rewrite !diagnostics_app.
    rewrite (diagnostics_calls _ (calls_parameterQueries _ _)).
    by rewrite (diagnostics_calls _ (calls_queriesFor _ _ _ _)).
  - rewrite !calls_app, calls_parameterQueries, calls_queriesFor.
    cbn. by rewrite app_nil_r.
Qed.

(** C4: for a function of a distributed actor whose parameters and result
    pass the Codable checks, the run ends with the lookup of the remote
    counterpart on the enclosing class.  If the class declares one that is
    not flagged as synthesized, the function returns true and, exactly when
    [diagnose] is set, emits the diagnostic naming the base identifier and
    the identifier ["_remote_"] followed by it; if there is none, or it is
    synthesized, the function returns false and emits nothing. *)
Theorem checkDistributedFunction_remote_counterpart func diagnose cache actorDecl :
  parametersCodable func = true ->
  resultCodable func = true ->
  getParent func = DC_Nominal (NTD_Class actorDecl) ->
  outcomeOf (isDistributedActor (NTD_Class actorDecl)) cache = Returned true ->
  (forall remote,
      remoteFuncOf actorDecl func = Some remote ->
      isSynthesized remote = false ->
      checkDistributedFunction func diagnose cache
      = (Returned true, cache,
         parameterQueries func (getParameters func) ++ resultQueries func
         ++ LookupDirectRemoteFunc actorDecl func
            :: (if diagnose
                then [Diagnosed (At_Func func)
                        (distributed_actor_remote_func_implemented_manually
                           (getBaseIdentifier func)
                           (String.append "_remote_" (getBaseIdentifier func)))]
                else [])))
  /\ (remoteFuncOf actorDecl func = None
      \/ (exists remote,
             remoteFuncOf actorDecl func = Some remote /\ isSynthesized remote = true) ->
      checkDistributedFunction func diagnose cache
      = (Returned false, cache,
         parameterQueries func (getParameters func) ++ resultQueries func
         ++ [LookupDirectRemoteFunc actorDecl func])).
Proof.
  intros Hparams Hresult Hparent Hactor.
  unfold outcomeOf in Hactor. rewrite run_isDistributedActor_class in Hactor.
  injection Hactor as Hactor.
  rewrite run_checkDistributedFunction_signature_ok by done.
  unfold outcomeOf, cacheOf, traceOf. rewrite run_remote, Hparent. cbn [dyn_cast_ClassDecl_ctx dyn_cast_ClassDecl].
  rewrite Hactor. split.
  - intros remote -> ->. reflexivity.
  - intros [-> | (remote & -> & ->)]; reflexivity.
Qed.

(** C8: the [diagnose] flag changes neither the value returned nor the path
    taken.  Both runs end the same way and leave the same cache; the run
    with [diagnose = true] makes exactly the calls of the run with
    [diagnose = false], in the same order; and the run with
    [diagnose = false] emits no diagnostic. *)
Theorem checkDistributedFunction_diagnose_flag func cache :
  outcomeOf (checkDistributedFunction func false) cache
  = outcomeOf (checkDistributedFunction func true) cache
  /\ cacheOf (checkDistributedFunction func false) cache
     = cacheOf (checkDistributedFunction func true) cache
  /\ calls (traceOf (checkDistributedFunction func true) cache)
     = traceOf (checkDistributedFunction func false) cache
  /\ diagnostics (traceOf (checkDistributedFunction func false) cache) = [].
Proof.
  destruct (outcome_checkDistributedFunction func false cache) as [-> ->].
  destruct (outcome_checkDistributedFunction func true cache) as [-> ->].
  do 2 (split; [reflexivity |]).
  assert (Hcalls : calls (traceOf (checkDistributedFunction func true) cache)
                   = traceOf (checkDistributedFunction func false) cache
                   /\ calls (traceOf (checkDistributedFunction func false) cache)
                      = traceOf (checkDistributedFunction func false) cache).
  { unfold traceOf.
    destruct (parametersCodable func) eqn:Hparams.
    - destruct (resultCodable func) eqn:Hresult.
      + rewrite !run_checkDistributedFunction_signature_ok by done. cbn [snd].
        rewrite !calls_app, calls_parameterQueries, calls_resultQueries.
        unfold traceOf. rewrite !run_remote.
        destruct (dyn_cast_ClassDecl_ctx (getParent func)) as [actorDecl |]; [| done].
        destruct (isExplicitDistributedActor actorDecl); [| done].
        destruct (remoteFuncOf actorDecl func) as [remote |]; [| done].
        by destruct (isSynthesized remote).
      + rewrite !run_checkDistributedFunction_result_bad by done. cbn [snd].
        rewrite !calls_app, calls_parameterQueries, calls_queriesFor.
        cbn. by rewrite !app_nil_r.
    - destruct (first_offender _ _ Hparams) as (before & offender & after & Hl & Hb & Ho).
      rewrite !(run_checkDistributedFunction_offender func _ _ _ _ cache Hl Hb Ho).
      cbn [snd]. rewrite !calls_app, calls_parameterQueries, calls_queriesFor.
      cbn. by rewrite !app_nil_r. }
  destruct Hcalls as [Htrue Hfalse]. split; [exact Htrue |].
  by apply diagnostics_calls.
Qed.

(** C9: [checkDistributedFunction] does not look at the
    distributed attribute of its argument - with the same remote-counterpart
    lookup, a function ends the same way with or without it - and does not
    validate the parent; it asserts it.  Inside a class classified as a
    distributed actor the assertion holds and the call returns.  Outside one,
    the assertion fails when execution reaches it, that is, when parameters
    and result pass the Codable checks (and then before any lookup); a
    function that fails a Codable check returns true before the assertion is
    evaluated. *)
Theorem checkDistributedFunction_assertion func diagnose cache :
  (forall flag,
      (forall actorDecl,
          remoteFuncOf actorDecl (withDistributedActorAttr flag func)
          = remoteFuncOf actorDecl func) ->
      outcomeOf (checkDistributedFunction (withDistributedActorAttr flag func) diagnose) cache
      = outcomeOf (checkDistributedFunction func diagnose) cache)
  /\ (enclosedInDistributedActor func = true ->
      exists problem,
        outcomeOf (checkDistributedFunction func diagnose) cache = Returned problem)
  /\ (enclosedInDistributedActor func = false ->
      parametersCodable func && resultCodable func = true ->
      checkDistributedFunction func diagnose cache
      = (AssertionFailed, cache,
         parameterQueries func (getParameters func) ++ resultQueries func))
  /\ (enclosedInDistributedActor func = false ->
      parametersCodable func && resultCodable func = false ->
      outcomeOf (checkDistributedFunction func diagnose) cache = Returned true).
Proof.
  split; [| split; [| split]].
  - intros flag Hlookup.
    destruct (outcome_checkDistributedFunction func diagnose cache) as [-> _].
    destruct (outcome_checkDistributedFunction
                (withDistributedActorAttr flag func) diagnose cache) as [-> _].
    unfold functionVerdict, remoteImplementedByHand.
    change (parametersCodable (withDistributedActorAttr flag func))
      with (parametersCodable func).
    change (resultCodable (withDistributedActorAttr flag func)) with (resultCodable func).
    change (enclosedInDistributedActor (withDistributedActorAttr flag func))
      with (enclosedInDistributedActor func).
    change (getParent (withDistributedActorAttr flag func)) with (getParent func).
    destruct (dyn_cast_ClassDecl_ctx (getParent func)) as [actorDecl |]; [| reflexivity].
    by rewrite Hlookup.
  - intros Henclosed.
    destruct (outcome_checkDistributedFunction func diagnose cache) as [-> _].
    unfold functionVerdict. rewrite Henclosed.
    destruct (negb _); eauto.
  - intros Henclosed [Hparams Hresult]%andb_true_iff.
    rewrite run_checkDistributedFunction_signature_ok by done.
    unfold outcomeOf, cacheOf, traceOf. rewrite run_remote.
    unfold enclosedInDistributedActor, dyn_cast_ClassDecl_ctx in *.
    destruct (getParent func) as [[ | actorDecl | | ] | | ]; cbn in *;
      rewrite ?Henclosed, ?app_nil_r; done.
  - intros _ Hsignature.
    destruct (outcome_checkDistributedFunction func diagnose cache) as [-> _].
    unfold functionVerdict. by rewrite Hsignature.
Qed.

(** *** The actor declaration checker *)

Lemma run_ensureDistributedModuleLoaded_fresh decl cache :
  cache !! classPtr decl = None ->
  ensureDistributedModuleLoaded decl cache
  = match getLoadedModule C (Id_Distributed C) with
    | Some _ => (Returned true, <[classPtr decl := true]> cache, [])
    | None =>
        (Returned false, <[classPtr decl := false]> cache,
         [Diagnosed (At_Class decl) distributed_actor_needs_explicit_distributed_import])
    end.
Proof.
  intros Hfresh.
  unfold ensureDistributedModuleLoaded, bind, evaluateOrDefault,
    DistributedModuleIsAvailableRequest_evaluate.
  rewrite Hfresh. by destruct (getLoadedModule C (Id_Distributed C)).
Qed.

Lemma run_ensureDistributedModuleLoaded_missing decl cache :
  cache !! classPtr decl = None ->
  getLoadedModule C (Id_Distributed C) = None ->
  ensureDistributedModuleLoaded decl cache
  = (Returned false, <[classPtr decl := false]> cache,
     [Diagnosed (At_Class decl) distributed_actor_needs_explicit_distributed_import]).
Proof. intros Hfresh Hmissing. rewrite run_ensureDistributedModuleLoaded_fresh by done. by rewrite Hmissing. Qed.

Lemma run_ensureDistributedModuleLoaded_loaded decl cache module :
  cache !! classPtr decl = None ->
  getLoadedModule C (Id_Distributed C) = Some module ->
  ensureDistributedModuleLoaded decl cache
  = (Returned true, <[classPtr decl := true]> cache, []).
Proof. intros Hfresh Hloaded. rewrite run_ensureDistributedModuleLoaded_fresh by done. by rewrite Hloaded. Qed.

Lemma run_ensureDistributedModuleLoaded_cached decl cache answer :
  cache !! classPtr decl = Some answer ->
  ensureDistributedModuleLoaded decl cache = (Returned answer, cache, []).
Proof.
  intros Hcached. unfold ensureDistributedModuleLoaded, bind, evaluateOrDefault.
  by rewrite Hcached.
Qed.

Lemma run_constructor_params_any ctor protocolDecl protocolTy module params :
  forall count found,
  exists result, forall cache,
    checkDistributedActorConstructor_params ctor protocolDecl protocolTy module
      params count found cache
    = (Returned result, cache,
       map (fun param =>
              ConformsToProtocol (ctorMapTypeIntoContext ctor (getInterfaceType param))
                protocolDecl module) params).
Proof.
  induction params as [| param rest IH]; intros count found.
  - by eexists.
  - cbn [checkDistributedActorConstructor_params map].
    destruct (isEqual (ctorMapTypeIntoContext ctor (getInterfaceType param)) protocolTy
              || negb (isInvalid (lookupConformance
                                    (ctorMapTypeIntoContext ctor (getInterfaceType param))
                                    protocolDecl module))) eqn:Htransport.
    + destruct (IH (int_wrap (count + 1)) (found ++ [param])) as [result Hrest].
      exists result. intros cache.
      erewrite run_bind by apply run_conformsToProtocol.
      rewrite Htransport, Hrest. reflexivity.
    + destruct (IH count found) as [result Hrest].
      exists result. intros cache.
      erewrite run_bind by apply run_conformsToProtocol.
      rewrite Htransport, Hrest. reflexivity.
Qed.

Lemma missingModule_conformance_queries (f : ParamDecl -> Ty) protocolDecl module params :
  existsb isMissingModuleDiagnostic
    (map (fun param => ConformsToProtocol (f param) protocolDecl module) params) = false.
Proof. induction params as [| param rest IH]; [reflexivity | exact IH]. Qed.

(** The constructor check always returns, leaves the cache alone, and what
    it emits does not depend on the cache and is never the missing-module
    diagnostic. *)
Lemma run_checkDistributedActorConstructor_any decl ctor :
  exists trace,
    (forall cache, checkDistributedActorConstructor decl ctor cache = (Returned tt, cache, trace))
    /\ existsb isMissingModuleDiagnostic trace = false.
Proof.
  unfold checkDistributedActorConstructor.
  destruct (isExplicitDistributedActor decl) eqn:Hactor.
  2: { exists []. split; [| reflexivity]. intros cache.
       erewrite run_bind by apply run_isDistributedActor_class. by rewrite Hactor. }
  destruct (isDesignatedInit ctor) eqn:Hdesignated.
  2: { exists []. split; [| reflexivity]. intros cache.
       erewrite run_bind by apply run_isDistributedActor_class.
       by rewrite Hactor. }
  destruct (run_constructor_params_any ctor (getProtocol C ActorTransport)
              (getDeclaredInterfaceType (getProtocol C ActorTransport))
              (ctorParentModule ctor) (ctorParameters ctor) 0 [])
    as [[count found] Hloop].
  exists (transportQueries ctor (ctorParameters ctor)
          ++ if Z.eqb count 0 then
               [Diagnosed (At_Ctor ctor)
                  (distributed_actor_designated_ctor_missing_transport_param (ctorName ctor))]
             else if Z.eqb count 1 then []
             else [Diagnosed (At_Ctor ctor)
                     (distributed_actor_designated_ctor_must_have_one_transport_param
                        (ctorName ctor) count)]).
  split.
  - intros cache.
    erewrite run_bind by apply run_isDistributedActor_class.
    rewrite Hactor. cbn [negb].
    erewrite run_bind by apply Hloop. cbv beta iota.
    destruct (Z.eqb count 0); [reflexivity |]. by destruct (Z.eqb count 1).
  - rewrite existsb_app. unfold transportQueries.
    rewrite missingModule_conformance_queries.
    destruct (Z.eqb count 0); [reflexivity |]. by destruct (Z.eqb count 1).
Qed.

Lemma run_checkDistributedActorConstructor decl ctor cache :
  checkDistributedActorConstructor decl ctor cache
  = (Returned tt, cache, traceOf (checkDistributedActorConstructor decl ctor) ∅).
Proof.
  destruct (run_checkDistributedActorConstructor_any decl ctor) as (trace & Hrun & _).
  unfold traceOf. by rewrite !Hrun.
Qed.

Lemma missingModule_checkDistributedActorConstructor decl ctor cache :
  existsb isMissingModuleDiagnostic (traceOf (checkDistributedActorConstructor decl ctor) cache)
  = false.
Proof.
  destruct (run_checkDistributedActorConstructor_any decl ctor) as (trace & Hrun & Hnone).
  unfold traceOf. by rewrite Hrun.
Qed.

Lemma missingModule_reservedProperties (props : list VarDecl) :
  existsb isMissingModuleDiagnostic (map reservedPropertyDiagnostic props) = false.
Proof. induction props as [| prop rest IH]; [reflexivity | exact IH]. Qed.

Lemma flat_map_constructors {B} (effect : ConstructorDecl -> list B) (members : list Decl) :
  flat_map (fun member =>
              match dyn_cast_ConstructorDecl member with
              | Some ctor => effect ctor
              | None => []
              end) members
  = flat_map effect (omap dyn_cast_ConstructorDecl members).
Proof.
  induction members as [| member rest IH]; [reflexivity |].
  destruct member; cbn; by rewrite ?IH.
Qed.

(** Where the request has been evaluated before, the gate answers from the
    cache: a cached refusal ends the check without any diagnostic. *)
Lemma checkDistributedActor_cached_refusal decl cache :
  cache !! classPtr decl = Some false ->
  checkDistributedActor decl cache = (Returned decl, cache, []).
Proof.
  intros Hcached. unfold checkDistributedActor.
  erewrite run_bind by by apply run_ensureDistributedModuleLoaded_cached.
  reflexivity.
Qed.

End Properties.

(** ** Further properties of the pass *)

Section FurtherProperties.
Context {TS : TypeSystem} {compiler : Collaborators}.

Implicit Types (cache : gmap positive bool) (func : FuncDecl) (decl : ClassDecl)
  (ctor : ConstructorDecl) (param : ParamDecl) (diagnose : bool).

(** *** The function validator as a whole *)

Lemma lookups_queriesFor func type first second :
  List.filter isRemoteLookup (queriesFor func type first second) = [].
Proof. unfold queriesFor. by destruct (conformsTo _ _ _). Qed.

Lemma lookups_parameterQueries func params :
  List.filter isRemoteLookup (parameterQueries func params) = [].
Proof.
  induction params as [| param rest IH]; [reflexivity |].
  cbn [parameterQueries flat_map]. rewrite List.filter_app, lookups_queriesFor. exact IH.
Qed.

Lemma lookups_resultQueries func : List.filter isRemoteLookup (resultQueries func) = [].
Proof. unfold resultQueries. destruct (isVoid _); [reflexivity | apply lookups_queriesFor]. Qed.

(** Every run of the function validator is a sequence of calls followed by at
    most one diagnostic, on the function itself. *)
Lemma trace_checkDistributedFunction_shape func diagnose cache :
  exists (queries : list Event) (reported : option Diag),
    traceOf (checkDistributedFunction func diagnose) cache
    = queries ++ reportedAt (At_Func func) reported
    /\ calls queries = queries
    /\ match reported with
       | Some _ => diagnose = true /\ functionVerdict func = Returned true
       | None => diagnose = false \/ functionVerdict func <> Returned true
       end
    /\ length (List.filter isRemoteLookup queries)
       = if parametersCodable func && resultCodable func && enclosedInDistributedActor func
         then 1%nat else 0%nat.
Proof.
  unfold traceOf, functionVerdict.
  destruct (parametersCodable func) eqn:Hparams; cbn [andb negb].
  - destruct (resultCodable func) eqn:Hresult; cbn [andb negb].
    + rewrite run_checkDistributedFunction_signature_ok by done. cbn [snd].
      unfold traceOf. rewrite run_remote.
      unfold enclosedInDistributedActor, remoteImplementedByHand, dyn_cast_ClassDecl_ctx.
      destruct (getParent func) as [[ | actorDecl | | ] | | ]; cbn [dyn_cast_ClassDecl snd].
      2: destruct (isExplicitDistributedActor actorDecl);
           [destruct (remoteFuncOf actorDecl func) as [remote |];
              [destruct (isSynthesized remote) |] |].
      2,4: exists (parameterQueries func (getParameters func) ++ resultQueries func
                   ++ [LookupDirectRemoteFunc actorDecl func]), None.
      4: exists (parameterQueries func (getParameters func) ++ resultQueries func
                 ++ [LookupDirectRemoteFunc actorDecl func]),
           (if diagnose
            then Some (distributed_actor_remote_func_implemented_manually
                         (getBaseIdentifier func)
                         (String.append "_remote_" (getBaseIdentifier func)))
            else None).
      1,5-9: exists (parameterQueries func (getParameters func) ++ resultQueries func), None.
      all: rewrite ?calls_app, ?List.filter_app, ?calls_parameterQueries, ?calls_resultQueries,
             ?lookups_parameterQueries, ?lookups_resultQueries, ?app_nil_r.
      all: try (destruct diagnose); cbn [reportedAt whenDiagnosing remoteDiagnostic negb];
        rewrite ?app_nil_r, <- ?app_assoc; repeat split;
        first [reflexivity | by left | by right | done].
    + rewrite run_checkDistributedFunction_result_bad by done. cbn [snd].
      exists (parameterQueries func (getParameters func)
              ++ queriesFor func (resultType func) Decodable Encodable),
        (if diagnose
         then Some (distributed_actor_func_result_not_codable (getResultInterfaceType func))
         else None).
      rewrite calls_app, List.filter_app, calls_parameterQueries, calls_queriesFor,
        lookups_parameterQueries, lookups_queriesFor.
      destruct diagnose; cbn [reportedAt whenDiagnosing resultDiagnostic];
        rewrite ?app_nil_r, <- ?app_assoc; repeat split;
        first [reflexivity | by left | done].
  - destruct (first_offender _ _ Hparams) as (before & offender & after & Hl & Hb & Ho).
    rewrite (run_checkDistributedFunction_offender func _ _ _ _ cache Hl Hb Ho). cbn [snd].
    exists (parameterQueries func before
            ++ queriesFor func (parameterType func offender) Encodable Decodable),
      (if diagnose
       then Some (distributed_actor_func_param_not_codable
                    (getArgumentName offender) (getInterfaceType offender))
       else None).
    rewrite calls_app, List.filter_app, calls_parameterQueries, calls_queriesFor,
      lookups_parameterQueries, lookups_queriesFor.
    destruct diagnose; cbn [reportedAt whenDiagnosing parameterDiagnostic];
      rewrite ?app_nil_r, <- ?app_assoc; repeat split;
      first [reflexivity | by left | done].
Qed.

(** X1: how a call of [checkDistributedFunction] ends is decided by four
    facts about the declaration, whatever [diagnose] and the cache are.  It
    returns false exactly when every parameter is Codable, the result is void
    or Codable, the function sits in a distributed-actor class and that class
    has no hand-written remote counterpart for it; it returns true exactly
    when the signature is not Codable or, inside a distributed actor, the
    remote counterpart is hand-written; the assertion fails exactly when the
    signature is Codable and the function is not in a distributed-actor
    class.  The cache is never touched. *)
Theorem checkDistributedFunction_decides func diagnose cache :
  (outcomeOf (checkDistributedFunction func diagnose) cache = Returned false <->
   parametersCodable func = true /\ resultCodable func = true
   /\ enclosedInDistributedActor func = true /\ remoteImplementedByHand func = false)
  /\ (outcomeOf (checkDistributedFunction func diagnose) cache = Returned true <->
      parametersCodable func = false \/ resultCodable func = false
      \/ (enclosedInDistributedActor func = true /\ remoteImplementedByHand func = true))
  /\ (outcomeOf (checkDistributedFunction func diagnose) cache = AssertionFailed <->
      parametersCodable func = true /\ resultCodable func = true
      /\ enclosedInDistributedActor func = false)
  /\ cacheOf (checkDistributedFunction func diagnose) cache = cache.
Proof.
  destruct (outcome_checkDistributedFunction func diagnose cache) as [-> ->].
  unfold functionVerdict.
  destruct (parametersCodable func), (resultCodable func),
    (enclosedInDistributedActor func), (remoteImplementedByHand func); cbn;
    repeat split; try done; try tauto; try (intros; intuition discriminate).
Qed.

(** X2: a call of [checkDistributedFunction] emits at most one diagnostic; it
    is attached to the function itself and is the last thing the call does.
    A diagnostic is emitted exactly when [diagnose] is set and the call
    returns true: a call that returns false, or whose assertion fails, has
    reported nothing. *)
Theorem checkDistributedFunction_at_most_one_diagnostic func diagnose cache :
  traceOf (checkDistributedFunction func diagnose) cache
  = calls (traceOf (checkDistributedFunction func diagnose) cache)
    ++ map eventOfDiagnostic
         (diagnostics (traceOf (checkDistributedFunction func diagnose) cache))
  /\ (diagnostics (traceOf (checkDistributedFunction func diagnose) cache) = []
      \/ exists d,
           diagnostics (traceOf (checkDistributedFunction func diagnose) cache)
           = [(At_Func func, d)])
  /\ (diagnostics (traceOf (checkDistributedFunction func diagnose) cache) <> [] <->
      diagnose = true
      /\ outcomeOf (checkDistributedFunction func diagnose) cache = Returned true).
Proof.
  destruct (outcome_checkDistributedFunction func diagnose cache) as [-> _].
  destruct (trace_checkDistributedFunction_shape func diagnose cache)
    as (queries & reported & -> & Hcalls & Hreported & _).
  rewrite calls_app, diagnostics_app, Hcalls, (diagnostics_calls _ Hcalls).
  destruct reported as [d |]; cbn.
  - rewrite app_nil_r. split; [reflexivity |]. split; [right; by exists d |].
    split; [by intros _ | done].
  - rewrite !app_nil_r. split; [reflexivity |]. split; [by left |].
    split; [done |]. intros [Hdiagnose Hverdict]. destruct Hreported; congruence.
Qed.

(** X3: the remote counterpart is looked up exactly once when the signature
    passes the Codable checks and the function sits in a distributed-actor
    class, and never otherwise: a rejected signature costs no lookup, and a
    failed assertion stops the call before it. *)
Theorem checkDistributedFunction_lookup_count func diagnose cache :
  length (List.filter isRemoteLookup (traceOf (checkDistributedFunction func diagnose) cache))
  = if parametersCodable func && resultCodable func && enclosedInDistributedActor func
    then 1%nat else 0%nat.
Proof.
  destruct (trace_checkDistributedFunction_shape func diagnose cache)
    as (queries & reported & -> & _ & _ & Hlookups).
  rewrite List.filter_app, length_app, Hlookups.
  destruct reported; cbn; lia.
Qed.

(** *** The constructor validator, without an assumption on the counter *)

Lemma calls_transportQueries ctor params :
  calls (transportQueries ctor params) = transportQueries ctor params.
Proof. induction params as [| param rest IH]; [reflexivity |]. cbn. by f_equal. Qed.

Lemma run_checkDistributedActorConstructor_shape decl ctor :
  exists reported : option Diag,
    forall cache,
      checkDistributedActorConstructor decl ctor cache
      = (Returned tt, cache,
         if isExplicitDistributedActor decl && isDesignatedInit ctor
         then transportQueries ctor (ctorParameters ctor) ++ reportedAt (At_Ctor ctor) reported
         else []).
Proof.
  unfold checkDistributedActorConstructor.
  destruct (isExplicitDistributedActor decl) eqn:Hactor.
  2: { exists None. intros cache.
       erewrite run_bind by apply run_isDistributedActor_class. by rewrite Hactor. }
  destruct (isDesignatedInit ctor) eqn:Hdesignated.
  2: { exists None. intros cache.
       erewrite run_bind by apply run_isDistributedActor_class. by rewrite Hactor. }
  destruct (run_constructor_params_any ctor (getProtocol C ActorTransport)
              (getDeclaredInterfaceType (getProtocol C ActorTransport))
              (ctorParentModule ctor) (ctorParameters ctor) 0 [])
    as [[count found] Hloop].
  exists (if Z.eqb count 0 then
            Some (distributed_actor_designated_ctor_missing_transport_param (ctorName ctor))
          else if Z.eqb count 1 then None
          else Some (distributed_actor_designated_ctor_must_have_one_transport_param
                       (ctorName ctor) count)).
  intros cache.
  erewrite run_bind by apply run_isDistributedActor_class.
  rewrite Hactor. cbn [negb andb].
  erewrite run_bind by apply Hloop. cbv beta iota.
  destruct (Z.eqb count 0); [reflexivity |]. by destruct (Z.eqb count 1).
Qed.

(** X4: on a distributed actor, the check of a designated initializer asks
    about every parameter, in order, one conformance query each - finding a
    second transport parameter does not end the scan - and then reports at
    most once, on the initializer itself.  This holds for every parameter
    list, and the cache is left alone. *)
Theorem checkDistributedActorConstructor_scans_all decl ctor cache :
  isExplicitDistributedActor decl = true ->
  isDesignatedInit ctor = true ->
  exists reported : option Diag,
    checkDistributedActorConstructor decl ctor cache
    = (Returned tt, cache,
       transportQueries ctor (ctorParameters ctor) ++ reportedAt (At_Ctor ctor) reported)
    /\ calls (traceOf (checkDistributedActorConstructor decl ctor) cache)
       = transportQueries ctor (ctorParameters ctor)
    /\ length (calls (traceOf (checkDistributedActorConstructor decl ctor) cache))
       = length (ctorParameters ctor).
Proof.
  intros Hactor Hdesignated.
  destruct (run_checkDistributedActorConstructor_shape decl ctor) as [reported Hrun].
  exists reported. unfold traceOf. rewrite Hrun, Hactor, Hdesignated. cbn [andb snd].
  split; [reflexivity |].
  assert (Hcalls : calls (transportQueries ctor (ctorParameters ctor)
                          ++ reportedAt (At_Ctor ctor) reported)
                   = transportQueries ctor (ctorParameters ctor)).
  { rewrite calls_app, calls_transportQueries. destruct reported; cbn; by rewrite app_nil_r. }
  split; [exact Hcalls |]. rewrite Hcalls. unfold transportQueries. by rewrite length_map.
Qed.

Lemma diagnostics_checkDistributedActorConstructor decl ctor cache :
  Z.of_nat (transportParamCount ctor) <= INT_MAX ->
  diagnostics (traceOf (checkDistributedActorConstructor decl ctor) cache)
  = if isExplicitDistributedActor decl && isDesignatedInit ctor
    then constructorVerdict ctor (transportParamCount ctor)
    else [].
Proof.
  intros Hfits. unfold traceOf, checkDistributedActorConstructor.
  erewrite run_bind by apply run_isDistributedActor_class.
  destruct (isExplicitDistributedActor decl); [| reflexivity].
  destruct (isDesignatedInit ctor); [| reflexivity]. cbn [negb andb].
  erewrite run_bind
    by (apply run_checkDistributedActorConstructor_params; [lia | exact Hfits]).
  rewrite Z.add_0_l. fold (transportParamCount ctor).
  destruct (transportParamCount ctor) as [| [| n]] eqn:Hcount.
  - cbn -[diagnostics transportQueries].
    by rewrite diagnostics_app, diagnostics_transportQueries.
  - cbn -[diagnostics transportQueries].
    by rewrite diagnostics_app, diagnostics_transportQueries.
  - replace (Z.eqb (Z.of_nat (S (S n))) 0) with false by (symmetry; apply Z.eqb_neq; lia).
    replace (Z.eqb (Z.of_nat (S (S n))) 1) with false by (symmetry; apply Z.eqb_neq; lia).
    cbn -[diagnostics transportQueries Z.of_nat].
    by rewrite diagnostics_app, diagnostics_transportQueries.
Qed.

Lemma filter_length_Permutation {A} (test : A -> bool) (l1 l2 : list A) :
  Permutation l1 l2 -> length (List.filter test l1) = length (List.filter test l2).
Proof.
  induction 1 as [| x l1 l2 _ IH | x y l | l1 l2 l3 _ IH1 _ IH2]; cbn.
  - reflexivity.
  - destruct (test x); cbn; by rewrite IH.
  - by destruct (test x), (test y).
  - by rewrite IH1.
Qed.

(** X5: where the transport parameter stands among the parameters does not
    matter.  Reordering the parameters of an initializer leaves the
    diagnostics of its check unchanged (they are attached to the reordered
    initializer, with the same content). *)
Theorem checkDistributedActorConstructor_parameter_order decl ctor params cache :
  Permutation params (ctorParameters ctor) ->
  Z.of_nat (transportParamCount ctor) <= INT_MAX ->
  map snd (diagnostics
             (traceOf (checkDistributedActorConstructor decl (withCtorParameters params ctor))
                cache))
  = map snd (diagnostics (traceOf (checkDistributedActorConstructor decl ctor) cache)).
Proof.
  intros Hperm Hfits.
  assert (Hcount : transportParamCount (withCtorParameters params ctor)
                   = transportParamCount ctor).
  { unfold transportParamCount.
    change (isTransportParam (withCtorParameters params ctor)) with (isTransportParam ctor).
    by apply filter_length_Permutation. }
  rewrite !diagnostics_checkDistributedActorConstructor by (rewrite ?Hcount; exact Hfits).
  rewrite Hcount.
  change (isDesignatedInit (withCtorParameters params ctor)) with (isDesignatedInit ctor).
  destruct (isExplicitDistributedActor decl && isDesignatedInit ctor); [| reflexivity].
  by destruct (transportParamCount ctor) as [| [| n]].
Qed.

(** *** The property validator over member lists *)

(** X6: the property check of a member list is the check of its parts, one
    after the other.  In particular the check of a class to which members
    were added reports what it reported before, followed by what the added
    members earn on their own: the check makes no difference between members
    written by the user and members added later. *)
Theorem checkDistributedActorProperties_members decl members1 members2 cache :
  traceOf (checkDistributedActorProperties (withMembers (members1 ++ members2) decl)) cache
  = traceOf (checkDistributedActorProperties (withMembers members1 decl)) cache
    ++ traceOf (checkDistributedActorProperties (withMembers members2 decl)) cache
  /\ traceOf (checkDistributedActorProperties (addMembers decl members2)) cache
     = traceOf (checkDistributedActorProperties decl) cache
       ++ traceOf (checkDistributedActorProperties (withMembers members2 decl)) cache.
Proof.
  unfold traceOf. rewrite !run_checkDistributedActorProperties. cbn [snd].
  unfold reservedProperties, withMembers, addMembers. cbn [getMembers].
  by rewrite !omap_app, !map_app.
Qed.

(** *** The gate and the orchestrator, from any cache *)

Lemma run_ensureDistributedModuleLoaded decl cache :
  ensureDistributedModuleLoaded decl cache
  = match cache !! classPtr decl with
    | Some answer => (Returned answer, cache, [])
    | None =>
        match getLoadedModule C (Id_Distributed C) with
        | Some _ => (Returned true, <[classPtr decl := true]> cache, [])
        | None =>
            (Returned false, <[classPtr decl := false]> cache,
             [Diagnosed (At_Class decl) distributed_actor_needs_explicit_distributed_import])
        end
    end.
Proof.
  destruct (cache !! classPtr decl) as [answer |] eqn:Hcache.
  - by apply run_ensureDistributedModuleLoaded_cached.
  - by apply run_ensureDistributedModuleLoaded_fresh.
Qed.

Lemma run_checkDistributedActor_behind_gate decl cache answer cache1 gateTrace :
  ensureDistributedModuleLoaded decl cache = (Returned answer, cache1, gateTrace) ->
  checkDistributedActor decl cache
  = if answer then
      let decl1 := addMembers decl (synthesizedDefaultInitializer decl) in
      (Returned (addMembers decl1 (implicitDistributedActorMembers decl1)), cache1,
       gateTrace ++ checksTrace decl)
    else (Returned decl, cache1, gateTrace).
Proof.
  intros Hgate. unfold checkDistributedActor.
  erewrite run_bind by exact Hgate.
  destruct answer; cbn [negb]; [| cbn; by rewrite app_nil_r].
  erewrite run_bind by reflexivity. cbn [fst snd].
  erewrite (run_bind (forEach _ _)).
  2: { apply run_forEach with
         (effect := fun member =>
            match dyn_cast_ConstructorDecl member with
            | Some ctor =>
                traceOf (checkDistributedActorConstructor
                           (addMembers decl (synthesizedDefaultInitializer decl)) ctor) ∅
            | None => []
            end).
       intros member cache'. destruct (dyn_cast_ConstructorDecl member) as [ctor |];
         [| reflexivity].
       by rewrite run_checkDistributedActorConstructor. }
  erewrite run_bind by apply run_checkDistributedActorProperties.
  cbn [fst snd app]. rewrite flat_map_constructors. reflexivity.
Qed.

Lemma missingModule_checksTrace decl :
  existsb isMissingModuleDiagnostic (checksTrace decl) = false.
Proof.
  unfold checksTrace. cbn [existsb isMissingModuleDiagnostic orb].
  rewrite !existsb_app, missingModule_reservedProperties.
  cbn [existsb isMissingModuleDiagnostic orb]. rewrite !orb_false_r.
  induction (constructors _) as [| ctor rest IH]; [reflexivity |].
  cbn [flat_map]. rewrite existsb_app, missingModule_checkDistributedActorConstructor.
  exact IH.
Qed.

(** X7: the missing-module diagnostic never comes with anything else.  If a
    run of [checkDistributedActor] emits it, then the request had not been
    evaluated for the class, the module is not loaded, and the run consists
    of that one diagnostic: nothing was synthesized, no constructor or
    property was checked, and the class is returned as it was. *)
Theorem checkDistributedActor_missing_module_alone decl cache :
  existsb isMissingModuleDiagnostic (traceOf (checkDistributedActor decl) cache) = true ->
  cache !! classPtr decl = None
  /\ getLoadedModule C (Id_Distributed C) = None
  /\ checkDistributedActor decl cache
     = (Returned decl, <[classPtr decl := false]> cache,
        [Diagnosed (At_Class decl) distributed_actor_needs_explicit_distributed_import]).
Proof.
  unfold traceOf. intros Hemitted.
  pose proof (run_ensureDistributedModuleLoaded decl cache) as Hgate.
  destruct (cache !! classPtr decl) as [answer |].
  - rewrite (run_checkDistributedActor_behind_gate _ _ _ _ _ Hgate) in Hemitted.
    destruct answer; cbn [snd app] in Hemitted; [| done].
    by rewrite missingModule_checksTrace in Hemitted.
  - destruct (getLoadedModule C (Id_Distributed C)) as [module |].
    + rewrite (run_checkDistributedActor_behind_gate _ _ _ _ _ Hgate) in Hemitted.
      cbn [snd app] in Hemitted. by rewrite missingModule_checksTrace in Hemitted.
    + do 2 (split; [reflexivity |]).
      by rewrite (run_checkDistributedActor_behind_gate _ _ _ _ _ Hgate).
Qed.

(** The gate is memoised per declaration.  From any cache, a second call
    of [ensureDistributedModuleLoaded] on the same declaration gives the
    answer of the first, emits nothing and changes nothing; the first call
    changes no entry of the cache but the declaration's own; and the checks
    behind the gate never touch the cache. *)
Lemma ensureDistributedModuleLoaded_memoised decl cache :
  ensureDistributedModuleLoaded decl (cacheOf (ensureDistributedModuleLoaded decl) cache)
  = (outcomeOf (ensureDistributedModuleLoaded decl) cache,
     cacheOf (ensureDistributedModuleLoaded decl) cache, [])
  /\ (forall other : DeclPtr,
         other <> classPtr decl ->
         cacheOf (ensureDistributedModuleLoaded decl) cache !! other = cache !! other)
  /\ cacheOf (checkDistributedActor decl) cache
     = cacheOf (ensureDistributedModuleLoaded decl) cache.
Proof.
  unfold cacheOf, outcomeOf.
  pose proof (run_ensureDistributedModuleLoaded decl cache) as Hgate.
  destruct (cache !! classPtr decl) as [answer |] eqn:Hcache.
  - rewrite (run_checkDistributedActor_behind_gate _ _ _ _ _ Hgate), Hgate. cbn [fst snd].
    split; [by apply run_ensureDistributedModuleLoaded_cached |].
    split; [done | by destruct answer].
  - destruct (getLoadedModule C (Id_Distributed C)) as [module |];
      rewrite (run_checkDistributedActor_behind_gate _ _ _ _ _ Hgate), Hgate; cbn [fst snd];
      (split; [apply run_ensureDistributedModuleLoaded_cached, lookup_insert_eq |]);
      (split; [intros other Hother; by apply lookup_insert_ne | reflexivity]).
Qed.

Lemma diagnostics_flat_map {A} (effect : A -> list Event) (l : list A) :
  diagnostics (flat_map effect l) = flat_map (fun x => diagnostics (effect x)) l.
Proof.
  induction l as [| x rest IH]; [reflexivity |].
  cbn [flat_map]. by rewrite diagnostics_app, IH.
Qed.

Lemma flat_map_length_le {A B} (effect : A -> list B) (l : list A) :
  (forall x, (length (effect x) <= 1)%nat) ->
  (length (flat_map effect l) <= length l)%nat.
Proof.
  intros Hone. induction l as [| x rest IH]; [done |].
  cbn [flat_map length]. rewrite length_app. specialize (Hone x). lia.
Qed.

Lemma diagnostics_checkDistributedActorConstructor_le decl ctor cache :
  (length (diagnostics (traceOf (checkDistributedActorConstructor decl ctor) cache)) <= 1)%nat.
Proof.
  destruct (run_checkDistributedActorConstructor_shape decl ctor) as [reported Hrun].
  unfold traceOf. rewrite Hrun. cbn [snd].
  destruct (isExplicitDistributedActor decl && isDesignatedInit ctor); [| cbn; lia].
  rewrite diagnostics_app, (diagnostics_calls _ (calls_transportQueries _ _)).
  destruct reported; cbn; lia.
Qed.

Lemma gate_open_trace decl cache :
  outcomeOf (ensureDistributedModuleLoaded decl) cache = Returned true ->
  traceOf (checkDistributedActor decl) cache = checksTrace decl.
Proof.
  unfold outcomeOf, traceOf. intros Hopen.
  pose proof (run_ensureDistributedModuleLoaded decl cache) as Hgate.
  destruct (cache !! classPtr decl) as [answer |].
  - rewrite Hgate in Hopen. injection Hopen as ->.
    by rewrite (run_checkDistributedActor_behind_gate _ _ _ _ _ Hgate).
  - destruct (getLoadedModule C (Id_Distributed C)) as [module |].
    + by rewrite (run_checkDistributedActor_behind_gate _ _ _ _ _ Hgate).
    + by rewrite Hgate in Hopen.
Qed.

(** X8: when the gate lets a class through, the diagnostics of
    [checkDistributedActor] are those of its constructors, in member order,
    followed by one per reserved property - both read on the class as the
    default-initializer synthesis left it.  So there are at most as many
    diagnostics as constructors and reserved properties together, every
    constructor diagnostic precedes every property diagnostic, and what the
    implicit-member synthesis appends afterwards is not examined. *)
Theorem checkDistributedActor_diagnostics decl cache :
  outcomeOf (ensureDistributedModuleLoaded decl) cache = Returned true ->
  let decl1 := addMembers decl (synthesizedDefaultInitializer decl) in
  diagnostics (traceOf (checkDistributedActor decl) cache)
  = flat_map (fun ctor =>
                diagnostics (traceOf (checkDistributedActorConstructor decl1 ctor) cache))
      (constructors decl1)
    ++ map reservedPropertyReport (reservedProperties decl1)
  /\ (length (diagnostics (traceOf (checkDistributedActor decl) cache))
      <= length (constructors decl1) + length (reservedProperties decl1))%nat.
Proof.
  intros Hopen decl1. rewrite (gate_open_trace _ _ Hopen).
  assert (Hdiagnostics :
    diagnostics (checksTrace decl)
    = flat_map (fun ctor =>
                  diagnostics (traceOf (checkDistributedActorConstructor decl1 ctor) cache))
        (constructors decl1)
      ++ map reservedPropertyReport (reservedProperties decl1)).
  { unfold checksTrace. fold decl1.
    change (GetDefaultInitializer decl :: ?l) with ([GetDefaultInitializer decl] ++ l).
    rewrite !diagnostics_app, diagnostics_flat_map, diagnostics_reservedProperties.
    change (diagnostics [GetDefaultInitializer decl]) with (@nil (DiagSite * Diag)).
    change (diagnostics [AddImplicitDistributedActorMembersToClass decl1])
      with (@nil (DiagSite * Diag)).
    cbn [app]. rewrite app_nil_r. f_equal.
    apply flat_map_ext. intros ctor. unfold traceOf.
    by rewrite !run_checkDistributedActorConstructor. }
  split; [exact Hdiagnostics |].
  rewrite Hdiagnostics, length_app, length_map.
  pose proof (flat_map_length_le
                (fun ctor =>
                   diagnostics (traceOf (checkDistributedActorConstructor decl1 ctor) cache))
                (constructors decl1)
                (fun ctor => diagnostics_checkDistributedActorConstructor_le decl1 ctor cache)).
  lia.
Qed.

(** X9: [checkDistributedActor] itself does not ask whether the class is a
    distributed actor.  Given a class without the marker, it still calls both
    synthesizers and still reports every reserved property; only the
    constructor checks, which look at the marker themselves, stay silent. *)
Theorem checkDistributedActor_plain_class decl cache :
  isExplicitDistributedActor decl = false ->
  outcomeOf (ensureDistributedModuleLoaded decl) cache = Returned true ->
  let decl1 := addMembers decl (synthesizedDefaultInitializer decl) in
  traceOf (checkDistributedActor decl) cache
  = GetDefaultInitializer decl
    :: map reservedPropertyDiagnostic (reservedProperties decl1)
    ++ [AddImplicitDistributedActorMembersToClass decl1].
Proof.
  intros Hplain Hopen decl1. rewrite (gate_open_trace _ _ Hopen).
  unfold checksTrace. fold decl1. f_equal.
  replace (flat_map _ (constructors decl1)) with (@nil Event); [reflexivity |].
  symmetry. induction (constructors decl1) as [| ctor rest IH]; [reflexivity |].
  cbn [flat_map]. rewrite IH, app_nil_r.
  destruct (run_checkDistributedActorConstructor_shape decl1 ctor) as [reported Hrun].
  unfold traceOf. rewrite Hrun. cbn [snd].
  unfold decl1. cbn [addMembers isExplicitDistributedActor]. by rewrite Hplain.
Qed.

(** *** Classification along protocol inheritance *)

(** X10: being a distributed actor is inherited by refinement: a protocol
    whose inheritance clause names a protocol classified as a distributed
    actor is classified as one. *)
Theorem isDistributedActor_inherited (base derived : ProtocolDecl) cache :
  In base (getInheritedProtocols derived) ->
  outcomeOf (isDistributedActor (NTD_Protocol base)) cache = Returned true ->
  outcomeOf (isDistributedActor (NTD_Protocol derived)) cache = Returned true.
Proof.
  unfold outcomeOf. cbn. intros Hin [= Hbase].
  f_equal. apply orb_true_iff. right.
  rewrite inheritsFrom_unfold. apply existsb_exists. by exists base.
Qed.

(** *** The gate of the orchestrator, in every state of the cache *)

Lemma checksTrace_steps decl cache :
  let decl1 := addMembers decl (synthesizedDefaultInitializer decl) in
  GetDefaultInitializer decl
  :: flat_map (fun ctor => traceOf (checkDistributedActorConstructor decl1 ctor) cache)
       (constructors decl1)
  ++ traceOf (checkDistributedActorProperties decl1) cache
  ++ [AddImplicitDistributedActorMembersToClass decl1]
  = checksTrace decl.
Proof.
  intros decl1. unfold checksTrace. fold decl1. f_equal. f_equal.
  - apply flat_map_ext. intros ctor. unfold traceOf.
    by rewrite !run_checkDistributedActorConstructor.
  - unfold traceOf. by rewrite run_checkDistributedActorProperties.
Qed.

(** C6: what [checkDistributedActor] does at its gate, for every class and
    every state of the evaluator's cache.  When the availability request has
    not been evaluated for the class yet: if the [_Distributed] module is not
    loaded, the run is the missing-module diagnostic, once, and nothing
    else - no synthesis call, no constructor check, no property check, the
    class as it was - and the refusal is cached; if the module is loaded, no
    missing-module diagnostic is emitted and every step runs in order: the
    default-initializer synthesis, the constructor check of every
    constructor member, the property check, the synthesis of the implicit
    members.  When the request has been evaluated before, its cached answer
    decides and no missing-module diagnostic is emitted: a cached refusal
    ends the call at once, with an empty trace; a cached acceptance runs
    every step.  The steps never contain a missing-module diagnostic. *)
Theorem checkDistributedActor_gate decl cache :
  let decl1 := addMembers decl (synthesizedDefaultInitializer decl) in
  let decl2 := addMembers decl1 (implicitDistributedActorMembers decl1) in
  let steps :=
    GetDefaultInitializer decl
    :: flat_map (fun ctor => traceOf (checkDistributedActorConstructor decl1 ctor) cache)
         (constructors decl1)
    ++ traceOf (checkDistributedActorProperties decl1) cache
    ++ [AddImplicitDistributedActorMembersToClass decl1] in
  (cache !! classPtr decl = None ->
   (getLoadedModule C (Id_Distributed C) = None ->
    checkDistributedActor decl cache
    = (Returned decl, <[classPtr decl := false]> cache,
       [Diagnosed (At_Class decl) distributed_actor_needs_explicit_distributed_import]))
   /\ (is_Some (getLoadedModule C (Id_Distributed C)) ->
       checkDistributedActor decl cache
       = (Returned decl2, <[classPtr decl := true]> cache, steps)))
  /\ (cache !! classPtr decl = Some false ->
      checkDistributedActor decl cache = (Returned decl, cache, []))
  /\ (cache !! classPtr decl = Some true ->
      checkDistributedActor decl cache = (Returned decl2, cache, steps))
  /\ existsb isMissingModuleDiagnostic steps = false.
Proof.
  intros decl1 decl2 steps.
  assert (Hsteps : steps = checksTrace decl) by apply checksTrace_steps.
  pose proof (run_ensureDistributedModuleLoaded decl cache) as Hgate.
  split; [| split; [| split]].
  - intros Hfresh. rewrite Hfresh in Hgate. split.
    + intros Hmissing. rewrite Hmissing in Hgate.
      by rewrite (run_checkDistributedActor_behind_gate _ _ _ _ _ Hgate).
    + intros [module Hloaded]. rewrite Hloaded in Hgate.
      rewrite (run_checkDistributedActor_behind_gate _ _ _ _ _ Hgate).
      cbn [app]. by rewrite Hsteps.
  - intros Hrefused. rewrite Hrefused in Hgate.
    by rewrite (run_checkDistributedActor_behind_gate _ _ _ _ _ Hgate).
  - intros Haccepted. rewrite Haccepted in Hgate.
    rewrite (run_checkDistributedActor_behind_gate _ _ _ _ _ Hgate).
    cbn [app]. by rewrite Hsteps.
  - rewrite Hsteps. apply missingModule_checksTrace.
Qed.

End FurtherProperties.

(** ** The properties at work on [Greeter] *)

Import Scenario.

(** [init(transport1: FakeTransport, transport2: ActorTransport)]: two
    transport parameters, one by conformance and one by type equality. *)
Lemma checkDistributedActorConstructor_verdict_witness :
  Z.of_nat (@transportParamCount swift withDistributed initTwoTransports) <= INT_MAX
  /\ exists trace,
       @checkDistributedActorConstructor swift withDistributed Greeter initTwoTransports ∅
       = (Returned tt, ∅, trace)
       /\ diagnostics trace
          = [(At_Ctor initTwoTransports,
              distributed_actor_designated_ctor_must_have_one_transport_param "init" 2)].
Proof.
  split; [by vm_compute |].
  apply (@checkDistributedActorConstructor_verdict swift withDistributed
           Greeter initTwoTransports ∅); [by vm_compute | reflexivity | reflexivity].
Defined.

(** [open(port: Int) -> Socket]: the parameter passes, the result is asked
    about [Decodable] only and reported. *)
Lemma checkDistributedFunction_result_witness :
  @parametersCodable swift withDistributed open_ = true
  /\ @checkDistributedFunction swift withDistributed open_ true ∅
     = (Returned true, ∅,
        [ConformsToProtocol (T_Int : @Ty swift) EncodableDecl main;
         ConformsToProtocol (T_Int : @Ty swift) DecodableDecl main;
         ConformsToProtocol (T_Socket : @Ty swift) DecodableDecl main;
         Diagnosed (At_Func open_)
           (distributed_actor_func_result_not_codable (T_Socket : @Ty swift))]).
Proof.
  split; [reflexivity |].
  apply (@checkDistributedFunction_result swift withDistributed open_ true ∅);
    [reflexivity | reflexivity | left; reflexivity].
Defined.

(** [send(text: String, via: Socket, log: Socket)]: two parameters fail, one
    diagnostic, for [via]. *)
Lemma checkDistributedFunction_first_offender_witness :
  getParameters send = [param "text" T_String] ++ param "via" T_Socket :: [param "log" T_Socket]
  /\ @parameterCodable swift withDistributed send (param "log" T_Socket) = false
  /\ diagnostics (traceOf (@checkDistributedFunction swift withDistributed send true) ∅)
     = [(At_Func send,
         distributed_actor_func_param_not_codable "via" (T_Socket : @Ty swift))]
  /\ calls (traceOf (@checkDistributedFunction swift withDistributed send true) ∅)
     = [ConformsToProtocol (T_String : @Ty swift) EncodableDecl main;
        ConformsToProtocol (T_String : @Ty swift) DecodableDecl main;
        ConformsToProtocol (T_Socket : @Ty swift) EncodableDecl main].
Proof.
  split; [reflexivity |]. split; [reflexivity |].
  apply (@checkDistributedFunction_first_offender swift withDistributed send ∅
           [param "text" T_String] (param "via" T_Socket) [param "log" T_Socket]);
    reflexivity.
Defined.

(** [ping()], whose [_remote_ping] was written by hand. *)
Lemma checkDistributedFunction_remote_counterpart_witness :
  @remoteFuncOf swift withDistributed Greeter ping = Some remote_ping_by_hand
  /\ @checkDistributedFunction swift withDistributed ping true ∅
     = (Returned true, ∅,
        [LookupDirectRemoteFunc Greeter ping;
         Diagnosed (At_Func ping)
           (distributed_actor_remote_func_implemented_manually "ping" "_remote_ping")]).
Proof.
  split; [reflexivity |].
  apply (proj1 (@checkDistributedFunction_remote_counterpart swift withDistributed
                  ping true ∅ Greeter eq_refl eq_refl eq_refl eq_refl)
           remote_ping_by_hand); reflexivity.
Defined.

(** [Greeter] without the [_Distributed] module, first visit. *)
Lemma checkDistributedActor_gate_witness :
  (∅ : gmap positive bool) !! classPtr Greeter = None
  /\ @checkDistributedActor swift withoutDistributed Greeter ∅
     = (Returned Greeter, {[ 10%positive := false ]},
        [Diagnosed (At_Class Greeter) distributed_actor_needs_explicit_distributed_import]).
Proof.
  split; [reflexivity |].
  apply (proj1 (@checkDistributedActor_gate swift withoutDistributed Greeter ∅));
    reflexivity.
Defined.

(** [Greeter] without the [_Distributed] module, after
    [ensureDistributedModuleLoaded] was already called on it: the module is
    not loaded, and [checkDistributedActor] emits no diagnostic at all. *)
Lemma checkDistributedActor_gate_second_visit :
  getLoadedModule (@C swift withoutDistributed) (Id_Distributed (@C swift withoutDistributed))
  = None
  /\ @ensureDistributedModuleLoaded swift withoutDistributed Greeter ∅
     = (Returned false, {[ 10%positive := false ]},
        [Diagnosed (At_Class Greeter) distributed_actor_needs_explicit_distributed_import])
  /\ @checkDistributedActor swift withoutDistributed Greeter {[ 10%positive := false ]}
     = (Returned Greeter, {[ 10%positive := false ]}, [])
  /\ length (List.filter isMissingModuleDiagnostic
               (traceOf (@checkDistributedActor swift withoutDistributed Greeter)
                  {[ 10%positive := false ]}))
     <> 1%nat.
Proof. repeat split; try reflexivity. discriminate. Qed.

(** [ping()] declared in a class that is not a distributed actor: the
    signature passes and the assertion fails. *)
Lemma checkDistributedFunction_assertion_witness :
  @enclosedInDistributedActor swift pingInPlainClass = false
  /\ @checkDistributedFunction swift withDistributed pingInPlainClass true ∅
     = (AssertionFailed, ∅, []).
Proof.
  split; [reflexivity |].
  apply (@checkDistributedFunction_assertion swift withDistributed pingInPlainClass true ∅);
    reflexivity.
Defined.

(** [send(text: String, via: Socket)] declared in a protocol: its parent is
    not a distributed-actor class, yet the call returns true and no
    assertion fails - the second parameter is reported first. *)
Lemma checkDistributedFunction_assertion_not_reached :
  @enclosedInDistributedActor swift sendInProtocol = false
  /\ @checkDistributedFunction swift withDistributed sendInProtocol true ∅
     = (Returned true, ∅,
        [ConformsToProtocol (T_String : @Ty swift) EncodableDecl main;
         ConformsToProtocol (T_String : @Ty swift) DecodableDecl main;
         ConformsToProtocol (T_Socket : @Ty swift) EncodableDecl main;
         Diagnosed (At_Func sendInProtocol)
           (distributed_actor_func_param_not_codable "via" (T_Socket : @Ty swift))])
  /\ outcomeOf (@checkDistributedFunction swift withDistributed sendInProtocol true) ∅
     <> AssertionFailed.
Proof. split; [reflexivity |]. split; [reflexivity | discriminate]. Qed.

(** The whole check of [Greeter] with the module loaded: the constructor
    diagnostics come first, in member order, then one diagnostic per reserved
    property; [init(name:transport:)] and [name] are accepted. *)
Example checkDistributedActor_Greeter :
  map snd (diagnostics (traceOf (@checkDistributedActor swift withDistributed Greeter) ∅))
  = [distributed_actor_designated_ctor_missing_transport_param "init";
     distributed_actor_designated_ctor_must_have_one_transport_param "init" 2;
     distributed_actor_user_defined_special_property "id";
     distributed_actor_user_defined_special_property "actorTransport";
     distributed_actor_user_defined_special_property "id"].
Proof. reflexivity. Qed.

(** A second visit of [Greeter] without the module answers from the cache
    and stays silent. *)
Example checkDistributedActor_Greeter_twice :
  traceOf (@checkDistributedActor swift withoutDistributed Greeter)
    (cacheOf (@checkDistributedActor swift withoutDistributed Greeter) ∅)
  = [].
Proof. reflexivity. Qed.

(** [Foreman : Encodable, Worker] and [Worker : DistributedActor]. *)
Example isDistributedActor_Foreman :
  outcomeOf (@isDistributedActor swift withDistributed (NTD_Protocol ForemanDecl)) ∅
  = Returned true
  /\ outcomeOf (@isDistributedActor swift withDistributed (NTD_Protocol EncodableDecl)) ∅
     = Returned false
  /\ outcomeOf (@isDistributedActor swift withDistributed (NTD_Struct "Point")) ∅
     = Returned false.
Proof. repeat split. Qed.

(** The further properties on the same program. *)

Lemma checkDistributedActorConstructor_scans_all_witness :
  isExplicitDistributedActor Greeter = true
  /\ isDesignatedInit initTwoTransports = true
  /\ calls (traceOf (@checkDistributedActorConstructor swift withDistributed
                       Greeter initTwoTransports) ∅)
     = [ConformsToProtocol (T_FakeTransport : @Ty swift) ActorTransportDecl main;
        ConformsToProtocol (T_ActorTransport : @Ty swift) ActorTransportDecl main].
Proof.
  split; [reflexivity |]. split; [reflexivity |].
  destruct (@checkDistributedActorConstructor_scans_all swift withDistributed
              Greeter initTwoTransports ∅ eq_refl eq_refl) as (reported & _ & Hcalls & _).
  exact Hcalls.
Defined.

(** [init(transport:name:)] against [init(name:transport:)]. *)
Lemma checkDistributedActorConstructor_parameter_order_witness :
  Permutation [param "transport" T_FakeTransport; param "name" T_String]
    (ctorParameters initOneTransport)
  /\ Z.of_nat (@transportParamCount swift withDistributed initOneTransport) <= INT_MAX
  /\ map snd (diagnostics
                (traceOf (@checkDistributedActorConstructor swift withDistributed Greeter
                            (withCtorParameters
                               [param "transport" T_FakeTransport; param "name" T_String]
                               initOneTransport)) ∅))
     = map snd (diagnostics
                  (traceOf (@checkDistributedActorConstructor swift withDistributed Greeter
                              initOneTransport) ∅)).
Proof.
  split; [apply perm_swap |]. split; [by vm_compute |].
  apply (@checkDistributedActorConstructor_parameter_order swift withDistributed);
    [apply perm_swap | by vm_compute].
Defined.

Lemma checkDistributedActor_missing_module_alone_witness :
  existsb isMissingModuleDiagnostic
    (traceOf (@checkDistributedActor swift withoutDistributed Greeter) ∅) = true
  /\ @checkDistributedActor swift withoutDistributed Greeter ∅
     = (Returned Greeter, <[classPtr Greeter := false]> ∅,
        [Diagnosed (At_Class Greeter) distributed_actor_needs_explicit_distributed_import]).
Proof.
  split; [reflexivity |].
  apply (@checkDistributedActor_missing_module_alone swift withoutDistributed Greeter ∅).
  reflexivity.
Defined.

(** [Greeter] has three constructors and three reserved properties, and earns
    five diagnostics. *)
Lemma checkDistributedActor_diagnostics_witness :
  outcomeOf (@ensureDistributedModuleLoaded swift withDistributed Greeter) ∅ = Returned true
  /\ (length (diagnostics (traceOf (@checkDistributedActor swift withDistributed Greeter) ∅))
      <= 3 + 3)%nat.
Proof.
  split; [reflexivity |].
  assert (Hopen : outcomeOf (@ensureDistributedModuleLoaded swift withDistributed Greeter) ∅
                  = Returned true) by reflexivity.
  exact (proj2 (@checkDistributedActor_diagnostics swift withDistributed Greeter ∅ Hopen)).
Defined.

(** [PlainGreeter]: both synthesizers are called, the three reserved
    properties are reported, the initializers are not. *)
Lemma checkDistributedActor_plain_class_witness :
  isExplicitDistributedActor PlainGreeter = false
  /\ outcomeOf (@ensureDistributedModuleLoaded swift withDistributed PlainGreeter) ∅
     = Returned true
  /\ traceOf (@checkDistributedActor swift withDistributed PlainGreeter) ∅
     = [GetDefaultInitializer PlainGreeter;
        Diagnosed (At_Var (mkVarDecl "id"))
          (distributed_actor_user_defined_special_property "id");
        Diagnosed (At_Var (mkVarDecl "actorTransport"))
          (distributed_actor_user_defined_special_property "actorTransport");
        Diagnosed (At_Var (mkVarDecl "id"))
          (distributed_actor_user_defined_special_property "id");
        AddImplicitDistributedActorMembersToClass PlainGreeter].
Proof.
  split; [reflexivity |]. split; [reflexivity |].
  apply (@checkDistributedActor_plain_class swift withDistributed PlainGreeter ∅);
    reflexivity.
Defined.

(** [Worker : DistributedActor]. *)
Lemma isDistributedActor_inherited_witness :
  In DistributedActorDecl (getInheritedProtocols WorkerDecl)
  /\ outcomeOf (@isDistributedActor swift withDistributed (NTD_Protocol WorkerDecl)) ∅
     = Returned true.
Proof.
  split; [by left |].
  apply (@isDistributedActor_inherited swift withDistributed DistributedActorDecl WorkerDecl ∅);
    [by left | reflexivity].
Defined.
